(** * yrikka-1A: annotation validator and dataset catalog

    A shallow embedding of
    - [scripts/validate_annotations.py] (the annotation validation loop),
    - [src/dataset_loader.py] (class [BTTDatasetLoader]), and
    - [scripts/setup_environment.py] (the setup checks),
    followed by the properties of the specification that concern them.

    Python values that come out of [json.load] are modelled by [json];
    exceptions are explicit ([exn], [result]); dictionaries that the code only
    looks up are finite maps ([gmap]); the catalog's [datasets] dictionary,
    whose key order is observable through [list_datasets], is an
    insertion-ordered association list. *)

From Stdlib Require Import ZArith List String Ascii Bool Lia.
From Stdlib Require Import Floats.SpecFloat.
From stdpp Require Import gmap strings list fin_maps.

Local Open Scope Z_scope.
Set Warnings "-register-all".

(* ===================================================================== *)
(** * Python values and the operations the two files use on them *)
(* ===================================================================== *)

Module Py.

(** What [json.load] can return: [None], [bool], [int], [float], [str],
    [list] and [dict] (keys are strings, in document order). Floats are IEEE
    binary64 values without payload, so NaN and the infinities, which
    [json.load] accepts, are values too. *)
Inductive json : Type :=
| JNull
| JBool (b : bool)
| JInt (z : Z)
| JFloat (f : spec_float)
| JStr (s : string)
| JList (l : list json)
| JDict (d : list (string * json)).

(** One piece of an f-string: literal text, an interpolated [str], or an
    interpolated list of strings (printed by Python with its [repr]). *)
Inductive fragment : Type :=
| Lit (s : string)
| Interp (s : string)
| InterpList (l : list string).

Inductive exn : Type :=
| KeyError (key : string)
| TypeError
| ValueError (msg : list fragment)
| AttributeError
| FileNotFoundError (msg : list fragment)
| NotADirectoryError (path : string)
| OSError (path : string)
| JSONDecodeError (path : string).

(** A computation that returns a value or raises. *)
Definition result (A : Type) : Type := (exn + A)%type.

Definition ret {A} (a : A) : result A := inr a.
Definition raise {A} (e : exn) : result A := inl e.
Definition bind {A B} (m : result A) (k : A -> result B) : result B :=
  match m with
  | inl e => inl e
  | inr a => k a
  end.

(** [bool(v)]: the truth value Python gives a JSON value. *)
Definition truthy (v : json) : bool :=
  match v with
  | JNull => false
  | JBool b => b
  | JInt z => negb (z =? 0)
  | JFloat f => negb (SFeqb f (S754_zero false))
  | JStr s => negb (String.eqb s EmptyString)
  | JList l => negb (Nat.eqb (length l) 0)
  | JDict d => negb (Nat.eqb (length d) 0)
  end.

(** The characters of a string, each as a one-character [str]. *)
Fixpoint chars (s : string) : list json :=
  match s with
  | EmptyString => []
  | String c s' => JStr (String c EmptyString) :: chars s'
  end.

(** [iter(v)]: the items a [for] loop or a tuple unpacking sees; numbers,
    booleans and [None] are not iterable. Iterating a dict yields its keys. *)
Definition py_iter (v : json) : option (list json) :=
  match v with
  | JStr s => Some (chars s)
  | JList l => Some l
  | JDict d => Some (map (fun kv => JStr (fst kv)) d)
  | JNull | JBool _ | JInt _ | JFloat _ => None
  end.

(** [len(v)]: raises [TypeError] exactly where [iter] does, for JSON values. *)
Definition py_len (v : json) : result nat :=
  match py_iter v with
  | Some items => ret (length items)
  | None => raise TypeError
  end.

(** [v <= 0] and [v < 0] against the [int] literal [0]. [bool] is a subclass
    of [int]; a float compares by value, NaN comparing false; every other
    type raises [TypeError]. *)
Definition py_le0 (v : json) : result bool :=
  match v with
  | JInt z => ret (z <=? 0)
  | JBool b => ret (Z.b2z b <=? 0)
  | JFloat f => ret (SFleb f (S754_zero false))
  | JNull | JStr _ | JList _ | JDict _ => raise TypeError
  end.

Definition py_lt0 (v : json) : result bool :=
  match v with
  | JInt z => ret (z <? 0)
  | JBool b => ret (Z.b2z b <? 0)
  | JFloat f => ret (SFltb f (S754_zero false))
  | JNull | JStr _ | JList _ | JDict _ => raise TypeError
  end.

(** [a or b] on two comparisons: [b] is evaluated only when [a] is false. *)
Definition py_or (a : result bool) (b : result bool) : result bool :=
  bind a (fun x => if x then ret true else b).

(** [l[:n]] for an [int] [n]: a negative bound counts from the end, and
    bounds outside the list are clamped. *)
Definition slice_to {A} (n : Z) (l : list A) : list A :=
  if 0 <=? n then take (Z.to_nat n) l
  else take (Z.to_nat (Z.of_nat (length l) + n)) l.

(** [os.path.join(a, b)] (POSIX): an absolute [b] discards [a]; otherwise a
    separator is inserted unless [a] is empty or already ends with one. *)
Definition starts_with_sep (s : string) : bool :=
  match s with
  | String c _ => Ascii.eqb c "/"%char
  | EmptyString => false
  end.

Fixpoint ends_with_sep (s : string) : bool :=
  match s with
  | EmptyString => false
  | String c EmptyString => Ascii.eqb c "/"%char
  | String _ s' => ends_with_sep s'
  end.

Definition path_join (a b : string) : string :=
  if starts_with_sep b then b
  else if String.eqb a EmptyString || ends_with_sep a then String.append a b
  else String.append a (String "/"%char b).

End Py.

(* ===================================================================== *)
(** * The COCO-like records shared by both files *)
(* ===================================================================== *)

Module Coco.
Import Py.

(** An Image record. [id] is read with [img["id"]] and is an integer;
    [file_name], [labels] and [contexts] may be missing ([None] here). *)
Record image : Type := {
  img_id : Z;
  file_name : option string;
  labels : option (list string);
  contexts : option (gmap string (list string))
}.

(** An Annotation record. Every key is read with [ann.get], so each may be
    missing; a missing or [null] identifier reads as [None]. [bbox] is kept
    as the raw JSON value. [drop_reason] is the key the validator sets. *)
Record annotation : Type := {
  ann_id : option Z;
  image_id : option Z;
  category_id : option Z;
  bbox : option json;
  drop_reason : option string
}.

Record category : Type := {
  cat_id : Z;
  cat_name : string
}.

(** The root object of one annotation file; each top-level key is read with
    [data.get(key, [])]. *)
Record collection : Type := {
  images : option (list image);
  annotations : option (list annotation);
  categories : option (list category)
}.

End Coco.

(* ===================================================================== *)
(** * Printed output *)
(* ===================================================================== *)

Module Console.
Import Py.

(** The exceptions the setup script meets besides those of [exn]:
    [ImportError] from [importlib], [CalledProcessError] from
    [subprocess]. *)
Inductive failure : Type :=
| ImportError (name : string)
| CalledProcessError
| Other (e : exn).

(** One interpolated piece of a printed line: literal text, a [str], an
    [int], a length, [sep.join(l)], the [repr] of a list of strings,
    [str(e)] of an exception, or a line break written inside the text. *)
Inductive token : Type :=
| Text (s : string)
| Str (s : string)
| Num (z : Z)
| Count (n : nat)
| Joined (sep : string) (l : list string)
| Listed (l : list string)
| Shown (e : failure)
| Newline.

(** What one call of [print] writes. *)
Definition line : Type := list token.

End Console.

(* ===================================================================== *)
(** * scripts/validate_annotations.py *)
(* ===================================================================== *)

Module Validator.
Import Py Coco.

(** The image directory the script is configured with. *)
Definition imgs : string :=
  "BTT_Data/8e0a5d2d-3ae0-4ff0-b6ee-2d85f7da4fee/images"%string.

(** The four reasons written to [drop_reason], in the order the loop body
    tests them. *)
Inductive drop_rule : Type :=
| MissingImage
| MissingBbox
| BadSize
| NegativeXY.

Definition reason_text (r : drop_rule) : string :=
  match r with
  | MissingImage => "missing image"
  | MissingBbox => "missing bbox"
  | BadSize => "zero/negative width or height"
  | NegativeXY => "negative x or y"
  end%string.

(** Position of a rule in the loop body. *)
Definition rank (r : drop_rule) : nat :=
  match r with
  | MissingImage => 0
  | MissingBbox => 1
  | BadSize => 2
  | NegativeXY => 3
  end%nat.

(** How one iteration of the loop ends: the annotation is appended to
    [clean_annotations], it is tagged and appended to [dropped_annotations],
    or an exception leaves the loop (and the script). *)
Inductive verdict : Type :=
| Accept
| Drop (r : drop_rule)
| Raise (e : exn).

(** [ann["drop_reason"] = text]: sets (or overwrites) that one key. *)
Definition set_drop_reason (ann : annotation) (text : string) : annotation :=
  {| ann_id := ann_id ann;
     image_id := image_id ann;
     category_id := category_id ann;
     bbox := bbox ann;
     drop_reason := Some text |}.

(** [img_dict = {img["id"]: img for img in data.get("images", [])}]: a later
    image with the same id replaces an earlier one. *)
Definition build_img_dict (imgs_list : list image) : gmap Z image :=
  foldl (fun (m : gmap Z image) (img : image) => <[img_id img := img]> m) ∅ imgs_list.

(** [img_dict.get(image_id)]; the keys are integers, so [None] finds nothing. *)
Definition img_dict_get (img_dict : gmap Z image) (key : option Z) : option image :=
  match key with
  | Some k => img_dict !! k
  | None => None
  end.

(** The truth value of [subset_limit]: [None] and [0] are false. *)
Definition limit_set (subset_limit : option Z) : bool :=
  match subset_limit with
  | Some n => negb (n =? 0)
  | None => false
  end.

(** Lines 21-23: the annotations the loop will visit. *)
Definition limited (subset_limit : option Z) (anns : list annotation) : list annotation :=
  if limit_set subset_limit
  then match subset_limit with
       | Some n => slice_to n anns
       | None => anns
       end
  else anns.

Section WithFileSystem.

(** [os.path.exists], as the file system answers while the script runs. *)
Variable path_exists : string -> bool.

Section WithIndex.

Variable img_dict : gmap Z image.

(** Lines 48-58: the bbox has just been unpacked into [x, y, w, h]. *)
Definition check_geometry (x y w h : json) : verdict :=
  match py_or (py_le0 w) (py_le0 h) with
  | inl e => Raise e
  | inr true => Drop BadSize
  | inr false =>
    match py_or (py_lt0 x) (py_lt0 y) with
    | inl e => Raise e
    | inr true => Drop NegativeXY
    | inr false => Accept
    end
  end.

(** Lines 43-48: [not bbox or len(bbox) != 4], then [x, y, w, h = bbox]. *)
Definition check_bbox (bbox : json) : verdict :=
  if negb (truthy bbox) then Drop MissingBbox
  else
    match py_len bbox with
    | inl e => Raise e
    | inr n =>
      if negb (Nat.eqb n 4) then Drop MissingBbox
      else
        match py_iter bbox with
        | Some [x; y; w; h] => check_geometry x y w h
        | Some _ => Raise (ValueError [])
        | None => Raise TypeError
        end
    end.

(** Lines 31-61: the body of the loop for one annotation. *)
Definition check (ann : annotation) : verdict :=
  let image_id := image_id ann in
  let bbox := default JNull (bbox ann) in
  match img_dict_get img_dict image_id with
  | None => Drop MissingImage
  | Some img_entry =>
    match file_name img_entry with
    | None => Raise (KeyError "file_name")
    | Some fn =>
      if negb (path_exists (path_join imgs fn)) then Drop MissingImage
      else check_bbox bbox
    end
  end.

(** Lines 25-61: the loop, threading the two output lists. *)
Fixpoint validation_loop (anns : list annotation)
    (clean_annotations dropped_annotations : list annotation)
  : result (list annotation * list annotation) :=
  match anns with
  | [] => ret (clean_annotations, dropped_annotations)
  | ann :: rest =>
    match check ann with
    | Raise e => raise e
    | Drop r =>
      validation_loop rest clean_annotations
        (dropped_annotations ++ [set_drop_reason ann (reason_text r)])
    | Accept =>
      validation_loop rest (clean_annotations ++ [ann]) dropped_annotations
    end
  end.

End WithIndex.

(** What the script computes before it writes its two files: the cleaned
    collection ([data] with [annotations] replaced) and the dropped list. *)
Record outputs : Type := {
  clean_data : collection;
  dropped : list annotation
}.

(** Lines 17-64 for a parsed [data] and a configured [subset_limit]. *)
Definition validate (subset_limit : option Z) (data : collection) : result outputs :=
  let img_dict := build_img_dict (default [] (images data)) in
  let annotations := limited subset_limit (default [] (annotations data)) in
  bind (validation_loop img_dict annotations [] [])
    (fun '(clean_annotations, dropped_annotations) =>
       ret {| clean_data := {| images := images data;
                               annotations := Some clean_annotations;
                               categories := categories data |};
              dropped := dropped_annotations |}).

End WithFileSystem.

End Validator.

(* ===================================================================== *)
(** * src/dataset_loader.py: class BTTDatasetLoader *)
(* ===================================================================== *)

Module Loader.
Import Py Coco.

(** ** Insertion-ordered dictionaries with string keys

    [self.datasets] is a Python [dict]: keys are unique, a new key goes to
    the end, assigning to an existing key keeps its position, and [keys()]
    lists them in that order. *)
Section OrderedDict.
Context {V : Type}.

Fixpoint dict_get (k : string) (d : list (string * V)) : option V :=
  match d with
  | [] => None
  | (k', v) :: d' => if String.eqb k k' then Some v else dict_get k d'
  end.

Fixpoint dict_set (k : string) (v : V) (d : list (string * V)) : list (string * V) :=
  match d with
  | [] => [(k, v)]
  | (k', v') :: d' =>
    if String.eqb k k' then (k', v) :: d' else (k', v') :: dict_set k v d'
  end.

Definition dict_keys (d : list (string * V)) : list string := map fst d.

End OrderedDict.

(** ** The catalog and the file system it reads *)

(** One value of [self.datasets]. [data] is [None] until the first load. *)
Record dataset_entry : Type := {
  annotations_path : string;
  images_path : string;
  loaded : bool;
  data : option collection
}.

(** The state of a loader instance. *)
Record loader : Type := {
  base_path : string;
  datasets : list (string * dataset_entry)
}.

(** The part of the file system the class touches. [fs_iterdir] gives the
    entries of a directory and is consulted for directories only. [fs_load]
    stands for [open(path)] followed by [json.load]: it raises or returns
    the parsed document. *)
Record file_system : Type := {
  fs_exists : string -> bool;
  fs_is_dir : string -> bool;
  fs_iterdir : string -> list string;
  fs_load : string -> result collection
}.

(** A method call: the instance afterwards, the files it opened (in order),
    and what it returned or raised. *)
Record call (A : Type) : Type := {
  self_after : loader;
  opened : list string;
  outcome : result A
}.
Arguments self_after {A} _.
Arguments opened {A} _.
Arguments outcome {A} _.

Definition starts_with_dot (s : string) : bool :=
  match s with
  | String c _ => Ascii.eqb c "."%char
  | EmptyString => false
  end.

(** One iteration of the discovery loop, for the directory entry [name]. *)
Definition discover_one (fs : file_system) (base : string)
    (ds : list (string * dataset_entry)) (name : string) : list (string * dataset_entry) :=
  let dataset_dir := path_join base name in
  if fs_is_dir fs dataset_dir && negb (starts_with_dot name) then
    let coco_file := path_join dataset_dir "coco.json" in
    let images_dir := path_join dataset_dir "images" in
    if fs_exists fs coco_file && fs_exists fs images_dir then
      dict_set name {| annotations_path := coco_file;
                       images_path := images_dir;
                       loaded := false;
                       data := None |} ds
    else ds
  else ds.

(** [_load_available_datasets]. Line 40 iterates [self.base_path.iterdir()],
    which raises [NotADirectoryError] on a path that exists and is not a
    directory. *)
Definition load_available_datasets (fs : file_system) (self : loader) : result loader :=
  if negb (fs_exists fs (base_path self)) then
    raise (FileNotFoundError [Lit "Dataset directory not found: "; Interp (base_path self)])
  else if negb (fs_is_dir fs (base_path self)) then
    raise (NotADirectoryError (base_path self))
  else
    ret {| base_path := base_path self;
           datasets := foldl (discover_one fs (base_path self)) (datasets self)
                             (fs_iterdir fs (base_path self)) |}.

(** [__init__]. *)
Definition init (fs : file_system) (base : string) : result loader :=
  load_available_datasets fs {| base_path := base; datasets := [] |}.

(** [list_datasets]. *)
Definition list_datasets (self : loader) : list string := dict_keys (datasets self).

(** The message of the [ValueError] raised by [load_dataset]. *)
Definition not_found_message (dataset_id : string) (available : list string) : list fragment :=
  [Lit "Dataset "; Interp dataset_id; Lit " not found. Available: "; InterpList available].

(** [load_dataset]. *)
Definition load_dataset (fs : file_system) (self : loader) (dataset_id : string)
  : call (option collection) :=
  match dict_get dataset_id (datasets self) with
  | None =>
    {| self_after := self;
       opened := [];
       outcome := raise (ValueError (not_found_message dataset_id (list_datasets self))) |}
  | Some entry =>
    if negb (loaded entry) then
      match fs_load fs (annotations_path entry) with
      | inl e =>
        {| self_after := self;
           opened := [annotations_path entry];
           outcome := raise e |}
      | inr parsed =>
        let entry' := {| annotations_path := annotations_path entry;
                         images_path := images_path entry;
                         loaded := true;
                         data := Some parsed |} in
        {| self_after := {| base_path := base_path self;
                            datasets := dict_set dataset_id entry' (datasets self) |};
           opened := [annotations_path entry];
           outcome := ret (data entry') |}
      end
    else
      {| self_after := self; opened := []; outcome := ret (data entry) |}
  end.

(** Run [body] on the collection that [load_dataset] returns; [data.get] on
    [None] raises [AttributeError]. *)
Definition with_dataset {A} (fs : file_system) (self : loader) (dataset_id : string)
    (body : collection -> A) : call A :=
  let c := load_dataset fs self dataset_id in
  {| self_after := self_after c;
     opened := opened c;
     outcome := bind (outcome c) (fun d =>
                  match d with
                  | Some data => ret (body data)
                  | None => raise AttributeError
                  end) |}.

(** ** Statistics *)

Record stats : Type := {
  num_images : nat;
  num_categories : nat;
  categories_by_name : gmap string Z;
  context_types : gset string;
  scene_types : gset string;
  lighting_conditions : gset string;
  blur_effects : gset string;
  occlusion_types : gset string;
  label_distribution : gmap string nat
}.

(** Lines 133-134: the inner loop over one image's labels. *)
Definition count_labels (label_counts : gmap string nat) (img_labels : list string)
  : gmap string nat :=
  foldl (fun (m : gmap string nat) (label : string) =>
           <[label := (default 0 (m !! label) + 1)%nat]> m)
        label_counts img_labels.

(** Lines 129-134 over all images: [label_counts]. *)
Definition label_counts (imgs : list image) : gmap string nat :=
  foldl (fun (m : gmap string nat) (img : image) =>
           count_labels m (default [] (labels img)))
        ∅ imgs.

(** [s.update(contexts.get(key, []))] accumulated over all images. *)
Definition context_values (key : string) (imgs : list image) : gset string :=
  foldl (fun (s : gset string) (img : image) =>
           s ∪ list_to_set (default [] (default ∅ (contexts img) !! key)))
        ∅ imgs.

(** The body of [get_dataset_stats] after the load. *)
Definition stats_of (data : collection) : stats :=
  let categories :=
    foldl (fun (m : gmap string Z) (cat : category) => <[cat_name cat := cat_id cat]> m)
          ∅ (default [] (categories data)) in
  let imgs := default [] (images data) in
  {| num_images := length imgs;
     num_categories := size categories;
     categories_by_name := categories;
     context_types :=
       foldl (fun (s : gset string) (img : image) => s ∪ dom (default ∅ (contexts img)))
             ∅ imgs;
     scene_types := context_values "scene" imgs;
     lighting_conditions := context_values "lighting conditions" imgs;
     blur_effects := context_values "blur effect" imgs;
     occlusion_types := context_values "occlusion" imgs;
     label_distribution := label_counts imgs |}.

(** [get_dataset_stats]. *)
Definition get_dataset_stats (fs : file_system) (self : loader) (dataset_id : string)
  : call stats :=
  with_dataset fs self dataset_id stats_of.

(** ** Filters *)

(** [any(val in img_context_values for val in required_values)]. *)
Definition any_in (required_values img_context_values : list string) : bool :=
  existsb (fun val => bool_decide (val ∈ img_context_values)) required_values.

(** Lines 174-180: the loop over [context_filters.items()] with its [break];
    the result is the final value of [match]. *)
Fixpoint context_match (img_contexts : gmap string (list string))
    (items : list (string * list string)) : bool :=
  match items with
  | [] => true
  | (context_type, required_values) :: rest =>
    let img_context_values := default [] (img_contexts !! context_type) in
    if negb (any_in required_values img_context_values) then false
    else context_match img_contexts rest
  end.

(** Lines 170-185: the loop over the images, appending the matching ones. *)
Fixpoint context_loop (imgs : list image) (context_filters : list (string * list string))
    (filtered_images : list image) : list image :=
  match imgs with
  | [] => filtered_images
  | img :: rest =>
    let img_contexts := default ∅ (contexts img) in
    if context_match img_contexts context_filters
    then context_loop rest context_filters (filtered_images ++ [img])
    else context_loop rest context_filters filtered_images
  end.

Definition images_by_context (context_filters : list (string * list string))
    (data : collection) : list image :=
  context_loop (default [] (images data)) context_filters [].

(** [filter_images_by_context]; [context_filters] is given by its
    [items()]. *)
Definition filter_images_by_context (fs : file_system) (self : loader)
    (dataset_id : string) (context_filters : list (string * list string))
  : call (list image) :=
  with_dataset fs self dataset_id (images_by_context context_filters).

(** [set(labels).issubset(img_labels)] with
    [img_labels = set(img.get('labels', []))]. *)
Definition has_labels (wanted : list string) (img : image) : bool :=
  let img_labels : gset string := list_to_set (default [] (labels img)) in
  bool_decide ((list_to_set wanted : gset string) ⊆ img_labels).

(** Lines 199-206: the loop over the images, appending the matching ones. *)
Fixpoint labels_loop (imgs : list image) (wanted : list string)
    (matching_images : list image) : list image :=
  match imgs with
  | [] => matching_images
  | img :: rest =>
    if has_labels wanted img
    then labels_loop rest wanted (matching_images ++ [img])
    else labels_loop rest wanted matching_images
  end.

Definition images_with_labels (wanted : list string) (data : collection) : list image :=
  labels_loop (default [] (images data)) wanted [].

(** [get_images_with_labels]. *)
Definition get_images_with_labels (fs : file_system) (self : loader)
    (dataset_id : string) (wanted : list string) : call (list image) :=
  with_dataset fs self dataset_id (images_with_labels wanted).

(** [get_image_path]: the entry's image directory joined with [filename];
    nothing is loaded and no file is looked at. *)
Definition get_image_path (self : loader) (dataset_id filename : string) : result string :=
  match dict_get dataset_id (datasets self) with
  | None => raise (ValueError [Lit "Dataset "; Interp dataset_id; Lit " not found"])
  | Some entry => ret (path_join (images_path entry) filename)
  end.

(** Lines 223-225: the loop of [load_all_datasets] over the identifiers
    listed before it starts. [datasets[dataset_id]['images']] needs the
    loaded document to be an object with an [images] key. *)
Fixpoint load_all_loop (fs : file_system) (self : loader) (ids : list string)
    (loaded_so_far : list (string * option collection)) (out : list Console.line)
  : list Console.line * result (list (string * option collection)) :=
  match ids with
  | [] => (out, ret loaded_so_far)
  | dataset_id :: rest =>
    let c := load_dataset fs self dataset_id in
    match outcome c with
    | inl e => (out, raise e)
    | inr d =>
      let loaded_so_far' := dict_set dataset_id d loaded_so_far in
      match d with
      | None => (out, raise TypeError)
      | Some parsed =>
        match images parsed with
        | None => (out, raise (KeyError "images"))
        | Some imgs =>
          load_all_loop fs (self_after c) rest loaded_so_far'
            (out ++ [[Console.Text "Loaded dataset "; Console.Str dataset_id;
                      Console.Text " with "; Console.Count (length imgs);
                      Console.Text " images"]])
        end
      end
    end
  end.

(** [load_all_datasets]: what it prints and what it returns or raises. *)
Definition load_all_datasets (fs : file_system) (base : string)
  : list Console.line * result (list (string * option collection)) :=
  match init fs base with
  | inl e => ([], raise e)
  | inr self => load_all_loop fs self (list_datasets self) [] []
  end.

End Loader.

(* ===================================================================== *)
(** * scripts/setup_environment.py *)
(* ===================================================================== *)

Module Setup.
Import Py Coco Console Loader.

(** What the script can observe of the machine it runs on: the interpreter
    version, which paths exist and which of them are directories, directory
    listings, the [*.png] files of a directory, what importing a module
    does ([None]: it succeeds), and what opening and parsing a JSON file
    gives. *)
Record world : Type := {
  version_info : Z * Z * Z;
  existing : gset string;
  directories : gset string;
  listing : string -> list string;
  png_files : string -> list string;
  import_module : string -> option failure;
  documents : string -> result collection
}.

(** How a step function ends: the machine afterwards, the lines printed,
    and the value returned ([None] for a function without [return]) or the
    exception that left it. *)
Record step : Type := {
  world_after : world;
  printed : list line;
  returned : failure + option bool
}.

Definition path_exists_in (w : world) (path : string) : bool :=
  bool_decide (path ∈ existing w).

Definition is_dir_in (w : world) (path : string) : bool :=
  bool_decide (path ∈ directories w).

(** The loader's view of the same machine. *)
Definition fs_of (w : world) : file_system :=
  {| fs_exists := path_exists_in w;
     fs_is_dir := is_dir_in w;
     fs_iterdir := listing w;
     fs_load := documents w |}.

(** [check_python_version]. *)
Definition check_python_version (w : world) : step :=
  let '(major, minor, micro) := version_info w in
  if (major <? 3) || ((major =? 3) && (minor <? 8)) then
    {| world_after := w;
       printed := [[Text "Checking Python version..."];
                   [Text "❌ Python "; Num major; Text "."; Num minor;
                    Text " detected. Python 3.8+ required."]];
       returned := inr (Some false) |}
  else
    {| world_after := w;
       printed := [[Text "Checking Python version..."];
                   [Text "✅ Python "; Num major; Text "."; Num minor; Text ".";
                    Num micro; Text " is compatible"]];
       returned := inr (Some true) |}.

Definition required_packages : list string :=
  ["numpy"; "pandas"; "matplotlib"; "seaborn"; "PIL";
   "torch"; "torchvision"; "cv2"; "sklearn"]%string.

(** Lines 58-63: the three branches of the [try] body. *)
Definition import_package (w : world) (package : string) : option failure :=
  if String.eqb package "PIL" then import_module w "PIL"
  else if String.eqb package "cv2" then import_module w "cv2"
  else import_module w package.

(** Lines 56-67: the loop of [verify_imports]; only [ImportError] is
    caught. *)
Fixpoint import_loop (w : world) (packages failed_imports : list string) (out : list line)
  : list line * (failure + list string) :=
  match packages with
  | [] => (out, inr failed_imports)
  | package :: rest =>
    match import_package w package with
    | None => import_loop w rest failed_imports (out ++ [[Text "✅ "; Str package]])
    | Some (ImportError _) =>
      import_loop w rest (failed_imports ++ [package]) (out ++ [[Text "❌ "; Str package]])
    | Some e => (out, inl e)
    end
  end.

(** [verify_imports]. *)
Definition verify_imports (w : world) : step :=
  match import_loop w required_packages [] [[Text "Verifying package imports..."]] with
  | (out, inl e) => {| world_after := w; printed := out; returned := inl e |}
  | (out, inr failed_imports) =>
    if negb (Nat.eqb (length failed_imports) 0) then
      {| world_after := w;
         printed := out ++ [[Newline; Text "❌ Failed to import: ";
                             Joined ", " failed_imports]];
         returned := inr (Some false) |}
    else
      {| world_after := w;
         printed := out ++ [[Text "✅ All required packages imported successfully"]];
         returned := inr (Some true) |}
  end.

Definition required_dirs : list string :=
  ["src"; "notebooks"; "scripts"; "docs"; "models"; "results"; "logs"]%string.

(** [dir_path.mkdir(exist_ok=True)] for a child of [parent]: an existing
    directory is left alone, an existing file or a missing parent raises an
    [OSError]. *)
Definition mkdir (dir_path parent : string) (w : world) : failure + world :=
  if path_exists_in w dir_path then
    if is_dir_in w dir_path then inr w else inl (Other (OSError dir_path))
  else if is_dir_in w parent then
    inr {| version_info := version_info w;
           existing := {[dir_path]} ∪ existing w;
           directories := {[dir_path]} ∪ directories w;
           listing := listing w;
           png_files := png_files w;
           import_module := import_module w;
           documents := documents w |}
  else inl (Other (OSError dir_path)).

Section WithProject.

(** [Path(__file__).parent.parent], and what running
    [pip install -r requirements_file] does to the machine: it ends
    normally ([None]) or raises. *)
Variable project_root : string.
Variable pip_install : string -> world -> world * option failure.

(** [install_requirements]. *)
Definition install_requirements (w : world) : step :=
  let requirements_file := path_join project_root "requirements.txt" in
  if negb (path_exists_in w requirements_file) then
    {| world_after := w;
       printed := [[Text "❌ requirements.txt not found"]];
       returned := inr (Some false) |}
  else
    match pip_install requirements_file w with
    | (w', None) =>
      {| world_after := w';
         printed := [[Text "Installing requirements..."];
                     [Text "✅ Requirements installed successfully"]];
         returned := inr (Some true) |}
    | (w', Some CalledProcessError) =>
      {| world_after := w';
         printed := [[Text "Installing requirements..."];
                     [Text "❌ Failed to install requirements"]];
         returned := inr (Some false) |}
    | (w', Some e) =>
      {| world_after := w';
         printed := [[Text "Installing requirements..."]];
         returned := inl e |}
    end.

(** The directories of [btt_data_path] that are not hidden. *)
Definition visible_dirs (w : world) (btt_data_path : string) : list string :=
  List.filter (fun name => is_dir_in w (path_join btt_data_path name)
                           && negb (starts_with_dot name))
              (listing w btt_data_path).

(** Lines 97-111: the loop of [check_dataset_structure] with its early
    returns. *)
Fixpoint check_each (w : world) (btt_data_path : string) (dataset_dirs : list string)
    (out : list line) : list line * bool :=
  match dataset_dirs with
  | [] => (out, true)
  | name :: rest =>
    let dataset_dir := path_join btt_data_path name in
    let coco_file := path_join dataset_dir "coco.json" in
    let images_dir := path_join dataset_dir "images" in
    if negb (path_exists_in w coco_file) then
      (out ++ [[Text "❌ Missing coco.json in "; Str name]], false)
    else if negb (path_exists_in w images_dir) then
      (out ++ [[Text "❌ Missing images directory in "; Str name]], false)
    else
      let image_files := png_files w images_dir in
      check_each w btt_data_path rest
        (out ++ [[Text "✅ Dataset "; Str name; Text ": ";
                  Count (length image_files); Text " images"]])
  end.

(** [check_dataset_structure]. Line 88 iterates [btt_data_path.iterdir()],
    which raises [NotADirectoryError] on a path that exists and is not a
    directory; the function does not catch it. *)
Definition check_dataset_structure (w : world) : step :=
  let btt_data_path := path_join project_root "BTT_Data" in
  if negb (path_exists_in w btt_data_path) then
    {| world_after := w;
       printed := [[Text "Checking dataset structure..."];
                   [Text "❌ BTT_Data directory not found"]];
       returned := inr (Some false) |}
  else if negb (is_dir_in w btt_data_path) then
    {| world_after := w;
       printed := [[Text "Checking dataset structure..."]];
       returned := inl (Other (NotADirectoryError btt_data_path)) |}
  else
    let dataset_dirs := visible_dirs w btt_data_path in
    if Nat.eqb (length dataset_dirs) 0 then
      {| world_after := w;
         printed := [[Text "Checking dataset structure..."];
                     [Text "❌ No dataset directories found in BTT_Data"]];
         returned := inr (Some false) |}
    else
      let '(out, ok) :=
        check_each w btt_data_path dataset_dirs
          [[Text "Checking dataset structure..."];
           [Text "✅ Found "; Count (length dataset_dirs); Text " dataset directories"]] in
      {| world_after := w; printed := out; returned := inr (Some ok) |}.

(** Lines 126-132: the loop of [create_directory_structure]. *)
Fixpoint create_loop (w : world) (dirs : list string) (out : list line)
  : world * list line * option failure :=
  match dirs with
  | [] => (w, out, None)
  | dir_name :: rest =>
    let dir_path := path_join project_root dir_name in
    if negb (path_exists_in w dir_path) then
      match mkdir dir_path project_root w with
      | inl e => (w, out, Some e)
      | inr w' => create_loop w' rest (out ++ [[Text "✅ Created directory: "; Str dir_name]])
      end
    else create_loop w rest (out ++ [[Text "✅ Directory exists: "; Str dir_name]])
  end.

(** [create_directory_structure]: the function has no [return]. *)
Definition create_directory_structure (w : world) : step :=
  match create_loop w required_dirs [[Text "Checking directory structure..."]] with
  | (w', out, Some e) => {| world_after := w'; printed := out; returned := inl e |}
  | (w', out, None) => {| world_after := w'; printed := out; returned := inr None |}
  end.

(** [run_basic_tests]: everything after the first [print] is inside
    [try ... except Exception]. *)
Definition run_basic_tests (w : world) : step :=
  let failed (before : list line) (e : failure) :=
    {| world_after := w;
       printed := [Text "Running basic tests..."] :: before
                  ++ [[Text "❌ Test failed: "; Shown e]];
       returned := inr (Some false) |} in
  match import_module w "dataset_loader" with
  | Some e => failed [] e
  | None =>
    match init (fs_of w) "../BTT_Data" with
    | inl e => failed [] (Other e)
    | inr loader =>
      match list_datasets loader with
      | [] =>
        {| world_after := w;
           printed := [[Text "Running basic tests..."]; [Text "❌ No datasets found"]];
           returned := inr (Some false) |}
      | first_dataset :: _ =>
        let found := [Text "✅ Found datasets: "; Listed (list_datasets loader)] in
        match outcome (get_dataset_stats (fs_of w) loader first_dataset) with
        | inl e => failed [found] (Other e)
        | inr stats =>
          {| world_after := w;
             printed := [[Text "Running basic tests..."]; found;
                         [Text "✅ Loaded dataset "; Str first_dataset; Text " with ";
                          Count (num_images stats); Text " images"]];
             returned := inr (Some true) |}
        end
      end
    end
  end.

(** The [steps] list of [main]. *)
Definition steps : list (string * (world -> step)) :=
  [("Python version"%string, check_python_version);
   ("Dataset structure"%string, check_dataset_structure);
   ("Directory structure"%string, create_directory_structure);
   ("Package installation"%string, install_requirements);
   ("Import verification"%string, verify_imports);
   ("Basic functionality"%string, run_basic_tests)].

(** ['='*50]. *)
Definition rule : string := "==================================================".

(** [not v] for what a step returns. *)
Definition falsy (v : option bool) : bool :=
  match v with
  | Some true => false
  | Some false | None => true
  end.

(** Lines 180-190: the loop of [main] over its steps. *)
Fixpoint run_steps (todo : list (string * (world -> step))) (w : world)
    (failed_steps : list string) (out : list line) : world * list line * list string :=
  match todo with
  | [] => (w, out, failed_steps)
  | (step_name, step_func) :: rest =>
    let s := step_func w in
    let out' := out ++ [[Newline; Text rule]; [Text "Step: "; Str step_name]; [Text rule]]
                    ++ printed s in
    match returned s with
    | inl e =>
      run_steps rest (world_after s) (failed_steps ++ [step_name])
        (out' ++ [[Text "❌ Error in "; Str step_name; Text ": "; Shown e]])
    | inr v =>
      if falsy v
      then run_steps rest (world_after s) (failed_steps ++ [step_name]) out'
      else run_steps rest (world_after s) failed_steps out'
    end
  end.

(** [main]: the machine afterwards, everything printed, and the return
    value. *)
Definition main (w : world) : world * list line * bool :=
  let '(w', out, failed_steps) :=
    run_steps steps w [] [[Text "🚀 Setting up YRIKKA Challenge environment..."; Newline]] in
  let summary := [[Newline; Text rule]; [Text "Setup Summary"]; [Text rule]] in
  if negb (Nat.eqb (length failed_steps) 0) then
    (w', out ++ summary
         ++ [[Text "❌ Setup failed. Issues with: "; Joined ", " failed_steps];
             [Text "Please resolve these issues before proceeding."]],
     false)
  else
    (w', out ++ summary
         ++ [[Text "✅ Environment setup completed successfully!"];
             [Text "You can now start working with the YRIKKA Challenge datasets."];
             [Newline; Text "Next steps:"];
             [Text "1. Open notebooks/dataset_exploration.ipynb to explore the data"];
             [Text "2. Check out src/dataset_loader.py for data loading utilities"];
             [Text "3. Review the README.md for project overview"]],
     true).

(** Lines 210-212: the exit status of the script. *)
Definition exit_status (w : world) : Z :=
  let '(_, _, success) := main w in
  if success then 0 else 1.

End WithProject.

End Setup.

(* ===================================================================== *)
(** * The vocabulary of the specification *)
(* ===================================================================== *)

(** The definitions of this module follow the wording of the specification;
    the theorems below compare them with the code above. *)
Module Spec.
Import Py Coco Validator Loader.

(** A JSON number: an [int] or a [float]. *)
Definition is_number (v : json) : Prop :=
  match v with
  | JInt _ | JFloat _ => True
  | _ => False
  end.

Section Rules.

Variable path_exists : string -> bool.
Variable img_dict : gmap Z image.

(** Rule 1 in the words of the specification: the annotation's [image_id]
    has no entry in the index, or the indexed image's [file_name] does not
    resolve to an existing file under the image root, an image without
    [file_name] key being treated like one whose file does not exist. *)
Definition image_missing (ann : annotation) : Prop :=
  img_dict_get img_dict (image_id ann) = None ∨
  ∃ img, img_dict_get img_dict (image_id ann) = Some img ∧
         (file_name img = None ∨
          ∃ fn, file_name img = Some fn ∧ path_exists (path_join imgs fn) = false).

(** Rule 1 as amended (C1, C3): the annotation's [image_id] has no entry in
    the index, or the indexed image has a [file_name] and no file of that
    name exists under the image root. *)
Definition image_file_missing (ann : annotation) : Prop :=
  img_dict_get img_dict (image_id ann) = None ∨
  ∃ img fn, img_dict_get img_dict (image_id ann) = Some img ∧
            file_name img = Some fn ∧
            path_exists (path_join imgs fn) = false.

(** The annotation's [image_id] resolves to an existing image file. *)
Definition image_resolves (ann : annotation) : Prop :=
  ∃ img fn, img_dict_get img_dict (image_id ann) = Some img ∧
            file_name img = Some fn ∧
            path_exists (path_join imgs fn) = true.

(** A value with exactly 4 numeric components. *)
Definition four_numeric_components (v : json) : Prop :=
  ∃ x y w h, v = JList [x; y; w; h] ∧
             is_number x ∧ is_number y ∧ is_number w ∧ is_number h.

(** Rule 2 in the words of the specification: the bbox is absent, null, or
    does not have exactly 4 numeric components. *)
Definition bbox_missing (ann : annotation) : Prop :=
  bbox ann = None ∨ bbox ann = Some JNull ∨
  ∃ v, bbox ann = Some v ∧ ¬ four_numeric_components v.

(** Rule 2 as amended (C1, C4): the bbox is absent, null or otherwise
    empty, or it is a sized value whose length is not 4. What the
    components are plays no part. *)
Definition bbox_empty_or_wrong_length (ann : annotation) : Prop :=
  truthy (default JNull (bbox ann)) = false ∨
  ∃ n, py_len (default JNull (bbox ann)) = inr n ∧ n ≠ 4%nat.

(** Rule 3: width or height compares [<= 0]. *)
Definition size_not_positive (ann : annotation) : Prop :=
  ∃ x y w h, py_iter (default JNull (bbox ann)) = Some [x; y; w; h] ∧
             (py_le0 w = inr true ∨ py_le0 h = inr true).

(** Rule 4: x or y compares [< 0]. *)
Definition origin_negative (ann : annotation) : Prop :=
  ∃ x y w h, py_iter (default JNull (bbox ann)) = Some [x; y; w; h] ∧
             (py_lt0 x = inr true ∨ py_lt0 y = inr true).

(** The four rules as the specification words them, and the first of
    them, in the precedence order, that [ann] fails. *)
Definition applicable (r : drop_rule) (ann : annotation) : Prop :=
  match r with
  | MissingImage => image_missing ann
  | MissingBbox => bbox_missing ann
  | BadSize => size_not_positive ann
  | NegativeXY => origin_negative ann
  end.

Definition first_applicable (r : drop_rule) (ann : annotation) : Prop :=
  applicable r ann ∧ ∀ r', (rank r' < rank r)%nat → ¬ applicable r' ann.

(** The four rules with rules 1 and 2 as amended, and the first of them,
    in the precedence order, that [ann] fails. *)
Definition applicable_as_amended (r : drop_rule) (ann : annotation) : Prop :=
  match r with
  | MissingImage => image_file_missing ann
  | MissingBbox => bbox_empty_or_wrong_length ann
  | BadSize => size_not_positive ann
  | NegativeXY => origin_negative ann
  end.

Definition first_applicable_as_amended (r : drop_rule) (ann : annotation) : Prop :=
  applicable_as_amended r ann ∧
  ∀ r', (rank r' < rank r)%nat → ¬ applicable_as_amended r' ann.

(** The image [ann] refers to, if it is indexed, has a [file_name] key. *)
Definition image_named (ann : annotation) : Prop :=
  ∀ img, img_dict_get img_dict (image_id ann) = Some img → is_Some (file_name img).

(** The bbox is absent, null, or a list of numbers (of any length). *)
Definition bbox_of_numbers (ann : annotation) : Prop :=
  bbox ann = None ∨ bbox ann = Some JNull ∨
  ∃ l, bbox ann = Some (JList l) ∧ Forall is_number l.

(** The loop body ends without raising on [ann]. *)
Definition completes (ann : annotation) : Prop :=
  ∀ e, check path_exists img_dict ann ≠ Raise e.

(** What the loop appends for a dropped annotation. *)
Definition tagged (ann : annotation) : option annotation :=
  match check path_exists img_dict ann with
  | Drop r => Some (set_drop_reason ann (reason_text r))
  | Accept | Raise _ => None
  end.

Definition accepted (ann : annotation) : bool :=
  match check path_exists img_dict ann with
  | Accept => true
  | Drop _ | Raise _ => false
  end.

Definition rejected (ann : annotation) : bool :=
  match check path_exists img_dict ann with
  | Drop _ => true
  | Accept | Raise _ => false
  end.

(** The loop body sorts every annotation into one of these outcomes. *)
Inductive outcome_of (ann : annotation) : verdict → Prop :=
| out_missing_image :
    image_file_missing ann →
    outcome_of ann (Drop MissingImage)
| out_key_error :
    outcome_of ann (Raise (KeyError "file_name"))
| out_missing_bbox :
    image_resolves ann → bbox_empty_or_wrong_length ann →
    outcome_of ann (Drop MissingBbox)
| out_not_sized :
    image_resolves ann →
    outcome_of ann (Raise TypeError)
| out_geometry x y w h :
    image_resolves ann →
    py_iter (default JNull (bbox ann)) = Some [x; y; w; h] →
    outcome_of ann (check_geometry x y w h).

End Rules.

(** A JSON number (an [int] or a [float]) that is [> 0], resp. [>= 0]. *)
Definition positive_number (v : json) : Prop :=
  match v with
  | JInt z => 0 < z
  | JFloat f => SFltb (S754_zero false) f = true
  | _ => False
  end.

Definition nonnegative_number (v : json) : Prop :=
  match v with
  | JInt z => 0 <= z
  | JFloat f => SFleb (S754_zero false) f = true
  | _ => False
  end.

(** The index the validator builds from [data]. *)
Definition index_of (data : collection) : gmap Z image :=
  build_img_dict (default [] (images data)).

(** The annotations the validator visits for a given [subset_limit]. *)
Definition processed (subset_limit : option Z) (data : collection) : list annotation :=
  limited subset_limit (default [] (annotations data)).

(** [data] with its annotations replaced. *)
Definition with_annotations (data : collection) (anns : list annotation) : collection :=
  {| images := images data; annotations := Some anns; categories := categories data |}.

(** The number of images whose labels array contains [label] at least once. *)
Definition images_containing (label : string) (imgs : list image) : nat :=
  length (filter (fun img => label ∈ default [] (labels img)) imgs).

(** The number of occurrences of [label] in all labels arrays together. *)
Definition occurrences (label : string) (imgs : list image) : nat :=
  sum_list (map (fun img => length (filter (fun l => l = label) (default [] (labels img)))) imgs).

(** The image's values under a context category; a category the image does
    not have counts as the empty list. *)
Definition values_under (img : image) (context_type : string) : list string :=
  default [] (default ∅ (contexts img) !! context_type).

(** For every key of the filters, at least one of the image's values under
    that category equals one of the acceptable values. *)
Definition matches (context_filters : list (string * list string)) (img : image) : Prop :=
  Forall (fun kv => Exists (fun v => v ∈ snd kv) (values_under img (fst kv)))
         context_filters.

#[global] Instance matches_dec context_filters img : Decision (matches context_filters img).
Proof. unfold matches. apply _. Defined.


(** ** Vocabulary for the dataset loader *)

(** A directory entry that discovery turns into a dataset: a directory
    whose name does not start with a dot and that holds both [coco.json]
    and [images]. *)
Definition is_dataset_dir (fs : file_system) (base name : string) : bool :=
  fs_is_dir fs (path_join base name) && negb (starts_with_dot name)
  && (fs_exists fs (path_join (path_join base name) "coco.json")
      && fs_exists fs (path_join (path_join base name) "images")).

(** The entry discovery creates for the directory [name]. *)
Definition fresh_entry (base name : string) : dataset_entry :=
  {| annotations_path := path_join (path_join base name) "coco.json";
     images_path := path_join (path_join base name) "images";
     loaded := false;
     data := None |}.

(** Every requested label occurs among the image's labels. *)
Definition carries (wanted : list string) (img : image) : Prop :=
  Forall (fun l => l ∈ default [] (labels img)) wanted.

#[global] Instance carries_dec wanted img : Decision (carries wanted img).
Proof. unfold carries. apply _. Defined.

(** [data] with its images replaced. *)
Definition with_images (data : collection) (imgs : list image) : collection :=
  {| images := Some imgs; annotations := annotations data; categories := categories data |}.

(** What [json.load] gives for the annotation file of the dataset [name],
    if it can be read. *)
Definition document_of (fs : file_system) (base name : string) : option collection :=
  match fs_load fs (path_join (path_join base name) "coco.json") with
  | inr parsed => Some parsed
  | inl _ => None
  end.

(** The annotation file of [name] parses to an object with an [images]
    key. *)
Definition has_images (fs : file_system) (base name : string) : Prop :=
  ∃ parsed imgs, fs_load fs (path_join (path_join base name) "coco.json") = inr parsed ∧
                 images parsed = Some imgs.

(** ** Vocabulary for the setup script *)


(** The identifiers discovery finds under [base], in listing order. *)
Definition dataset_ids (fs : file_system) (base : string) : list string :=
  List.filter (is_dataset_dir fs base) (fs_iterdir fs base).

(** The line [load_all_datasets] prints after loading [name]. *)
Definition loaded_line (fs : file_system) (base name : string) : Console.line :=
  [Console.Text "Loaded dataset "; Console.Str name; Console.Text " with ";
   Console.Count (length (default [] (document_of fs base name ≫= images)));
   Console.Text " images"].




(** The directory [name] of [btt_data_path] has both parts of a dataset. *)
Definition complete_in (w : Setup.world) (btt_data_path name : string) : Prop :=
  path_join (path_join btt_data_path name) "coco.json" ∈ Setup.existing w ∧
  path_join (path_join btt_data_path name) "images" ∈ Setup.existing w.

End Spec.

(* ===================================================================== *)
(** * Concrete inputs *)
(* ===================================================================== *)

Module Examples.
Import Py Coco Validator Loader Spec.

(** A file system in which exactly [a.png] exists under the image root. *)
Definition only_a_png (path : string) : bool :=
  String.eqb path (path_join imgs "a.png").

Definition image_a : image :=
  {| img_id := 1; file_name := Some "a.png"%string;
     labels := Some ["cup"%string]; contexts := None |}.

Definition ann_of (id image : Z) (box : json) : annotation :=
  {| ann_id := Some id; image_id := Some image; category_id := None;
     bbox := Some box; drop_reason := None |}.

Definition box (x y w h : Z) : json := JList [JInt x; JInt y; JInt w; JInt h].

(** The scenario of the specification: one accepted annotation, one with a
    negative width, one that refers to an unknown image. *)
Definition ann10 : annotation := ann_of 10 1 (box 5 5 20 20).
Definition ann11 : annotation := ann_of 11 1 (box 0 0 (-3) 10).
Definition ann12 : annotation := ann_of 12 99 (box 0 0 1 1).

Definition scenario : collection :=
  {| images := Some [image_a];
     annotations := Some [ann10; ann11; ann12];
     categories := None |}.

(** An annotation that fails all four rules at once. *)
Definition ann_all_wrong : annotation := ann_of 13 99 (JList [JInt (-1); JInt (-1); JInt 0]).

(** An annotation of a known, existing image with a negative origin and a
    zero width. *)
Definition ann_size_and_origin : annotation := ann_of 14 1 (box (-1) (-1) 0 5).

(** An image record without a [file_name] key, and an annotation of it. *)
Definition image_unnamed : image :=
  {| img_id := 2; file_name := None; labels := None; contexts := None |}.

Definition ann_of_unnamed : annotation := ann_of 20 2 (box 0 0 1 1).

Definition unnamed_data : collection :=
  {| images := Some [image_a; image_unnamed];
     annotations := Some [ann10; ann_of_unnamed];
     categories := None |}.



(** A bbox of four components, one of which is not a number, with a zero
    width. *)
Definition ann_mixed_box : annotation :=
  ann_of 32 1 (JList [JInt 0; JStr "a"; JInt 0; JInt 5]).

Definition mixed_box_data : collection :=
  {| images := Some [image_a]; annotations := Some [ann_mixed_box]; categories := None |}.

(** A bbox with float components: 0.5, 0.0, 1.5, 2.0. *)
Definition ann_float_box : annotation :=
  ann_of 31 1 (JList [JFloat (S754_finite false 1 (-1)); JFloat (S754_zero false);
                      JFloat (S754_finite false 3 (-1)); JFloat (S754_finite false 1 1)]).

(** An image whose labels array repeats a label. *)
Definition image_two_cups : image :=
  {| img_id := 3; file_name := Some "b.png"%string;
     labels := Some ["cup"; "cup"]%string; contexts := None |}.

(** Images with contexts. *)
Definition image_kitchen : image :=
  {| img_id := 4; file_name := Some "k.png"%string; labels := Some [];
     contexts := Some {[ "scene"%string := ["kitchen"; "indoor"]%string;
                         "occlusion"%string := ["none"%string] ]} |}.

Definition image_street : image :=
  {| img_id := 5; file_name := Some "s.png"%string; labels := Some [];
     contexts := Some {[ "scene"%string := ["street"%string] ]} |}.

Definition image_plain : image :=
  {| img_id := 6; file_name := Some "p.png"%string; labels := None; contexts := None |}.

(** A loader with one dataset that has not been loaded yet. *)
Definition entry_d1 : dataset_entry :=
  {| annotations_path := "BTT_Data/d1/coco.json";
     images_path := "BTT_Data/d1/images";
     loaded := false;
     data := None |}.

Definition loader_d1 : loader :=
  {| base_path := "BTT_Data"; datasets := [("d1"%string, entry_d1)] |}.

(** A file system whose every annotation file parses to [scenario], and one
    in which every read fails. *)
Definition fs_scenario : file_system :=
  {| fs_exists := fun _ => true;
     fs_is_dir := fun _ => true;
     fs_iterdir := fun _ => ["d1"%string];
     fs_load := fun _ => ret scenario |}.

Definition fs_broken : file_system :=
  {| fs_exists := fun _ => false;
     fs_is_dir := fun _ => false;
     fs_iterdir := fun _ => [];
     fs_load := fun path => raise (OSError path) |}.

(** A file system in which [BTT_Data] is a regular file and nothing else
    exists. *)
Definition fs_plain_file : file_system :=
  {| fs_exists := fun path => String.eqb path "BTT_Data";
     fs_is_dir := fun _ => false;
     fs_iterdir := fun _ => [];
     fs_load := fun path => raise (OSError path) |}.


(** Two image records with the same id. *)
Definition image_a_again : image :=
  {| img_id := 1; file_name := Some "a2.png"%string; labels := None; contexts := None |}.

(** Images with labels. *)
Definition image_cup_table : image :=
  {| img_id := 7; file_name := Some "ct.png"%string;
     labels := Some ["cup"; "table"; "cup"]%string; contexts := None |}.

Definition image_table : image :=
  {| img_id := 8; file_name := Some "t.png"%string;
     labels := Some ["table"%string]; contexts := None |}.

Definition labelled : collection :=
  {| images := Some [image_cup_table; image_table; image_plain];
     annotations := None; categories := None |}.

(** Categories, two of them with the same name. *)
Definition repeated_categories : collection :=
  {| images := None; annotations := None;
     categories := Some [ {| cat_id := 1; cat_name := "cup" |};
                          {| cat_id := 2; cat_name := "table" |};
                          {| cat_id := 3; cat_name := "cup" |} ] |}.

(** A document without an [images] key. *)
Definition no_images : collection :=
  {| images := None; annotations := Some []; categories := None |}.

(** A file system in which [BTT_Data] holds the dataset [d1], a hidden
    directory and a directory without annotation file; [d1] parses to
    [no_images]. *)
Definition fs_mixed : file_system :=
  {| fs_exists := fun path =>
       bool_decide (path ∈ ["BTT_Data"; "BTT_Data/d1/coco.json"; "BTT_Data/d1/images";
                            "BTT_Data/.git/coco.json"; "BTT_Data/.git/images";
                            "BTT_Data/d2/images"]%string);
     fs_is_dir := fun path =>
       bool_decide (path ∈ ["BTT_Data"; "BTT_Data/d1"; "BTT_Data/.git";
                            "BTT_Data/d2"]%string);
     fs_iterdir := fun _ => [".git"; "d1"; "d2"; "notes.txt"]%string;
     fs_load := fun _ => ret no_images |}.


(** A machine on which every check of the setup script is satisfied: the
    seven project directories, [requirements.txt], one complete dataset
    under the project's [BTT_Data] and under [../BTT_Data], and every
    module importable. *)
Definition ready_machine : Setup.world :=
  {| Setup.version_info := (3, 11, 4);
     Setup.existing :=
       list_to_set ["/proj"; "/proj/src"; "/proj/notebooks"; "/proj/scripts"; "/proj/docs";
                    "/proj/models"; "/proj/results"; "/proj/logs";
                    "/proj/requirements.txt"; "/proj/BTT_Data";
                    "/proj/BTT_Data/d1/coco.json"; "/proj/BTT_Data/d1/images";
                    "../BTT_Data"; "../BTT_Data/d1/coco.json";
                    "../BTT_Data/d1/images"]%string;
     Setup.directories :=
       list_to_set ["/proj"; "/proj/src"; "/proj/notebooks"; "/proj/scripts"; "/proj/docs";
                    "/proj/models"; "/proj/results"; "/proj/logs"; "/proj/BTT_Data";
                    "/proj/BTT_Data/d1"; "/proj/BTT_Data/d1/images";
                    "../BTT_Data"; "../BTT_Data/d1"; "../BTT_Data/d1/images"]%string;
     Setup.listing := fun _ => ["d1"%string];
     Setup.png_files := fun _ => ["a.png"%string];
     Setup.import_module := fun _ => None;
     Setup.documents := fun _ => ret scenario |}.

(** A [pip] that always succeeds and leaves the machine as it is. *)
Definition pip_ok (requirements_file : string) (w : Setup.world)
  : Setup.world * option Console.failure := (w, None).

End Examples.

(* ===================================================================== *)
(** * Properties of the validator *)
(* ===================================================================== *)

Import Py Coco Validator Loader Spec.

(** ** Comparisons against zero *)

Lemma positive_not_le0 (v : json) : positive_number v → py_le0 v = inr false.
Proof.
  destruct v as [ | b | z | f | s | l | d]; simpl; try contradiction.
  - intros Hz. unfold ret. f_equal. apply Z.leb_gt. exact Hz.
  - destruct f as [[|] | [|] | | [|] m e]; cbn; intros H; try discriminate H; reflexivity.
Qed.

Lemma nonnegative_not_lt0 (v : json) : nonnegative_number v → py_lt0 v = inr false.
Proof.
  destruct v as [ | b | z | f | s | l | d]; simpl; try contradiction.
  - intros Hz. unfold ret. f_equal. apply Z.ltb_ge. exact Hz.
  - destruct f as [[|] | [|] | | [|] m e]; cbn; intros H; try discriminate H; reflexivity.
Qed.

Lemma number_le0_returns (v : json) : is_number v → ∃ b, py_le0 v = inr b.
Proof. destruct v; simpl; try contradiction; eauto. Qed.

Lemma number_lt0_returns (v : json) : is_number v → ∃ b, py_lt0 v = inr b.
Proof. destruct v; simpl; try contradiction; eauto. Qed.

Lemma py_len_iter (v : json) (n : nat) :
  py_len v = inr n ↔ ∃ items, py_iter v = Some items ∧ length items = n.
Proof.
  unfold py_len. destruct (py_iter v) as [items|]; simpl; split.
  - intros [= <-]. eauto.
  - intros (items' & [= <-] & <-). reflexivity.
  - discriminate.
  - intros (items' & [=] & _).
Qed.

Lemma iter_nonempty_truthy (v : json) (x : json) (items : list json) :
  py_iter v = Some (x :: items) → truthy v = true.
Proof.
  destruct v as [ | b | z | f | s | l | d]; simpl; try discriminate.
  - destruct s; simpl; [discriminate | reflexivity].
  - intros [= ->]. reflexivity.
  - destruct d; simpl; [discriminate | reflexivity].
Qed.

(** ** Slices *)

Lemma slice_to_positive {A} (n : Z) (l : list A) :
  0 <= n → slice_to n l = take (Z.to_nat n) l.
Proof. intros Hn. unfold slice_to. apply Z.leb_le in Hn. rewrite Hn. reflexivity. Qed.

Lemma slice_to_negative {A} (n : Z) (l : list A) :
  n < 0 → slice_to n l = take (length l - Z.to_nat (- n)) l.
Proof.
  intros Hn. unfold slice_to. apply Z.leb_gt in Hn as Hb. rewrite Hb.
  f_equal. lia.
Qed.

Section ValidatorFacts.

Variable path_exists : string -> bool.
Variable img_dict : gmap Z image.

Local Abbreviation check := (check path_exists img_dict).
Local Abbreviation validation_loop := (validation_loop path_exists img_dict).
Local Abbreviation completes := (completes path_exists img_dict).
Local Abbreviation accepted := (accepted path_exists img_dict).
Local Abbreviation rejected := (rejected path_exists img_dict).
Local Abbreviation tagged := (tagged path_exists img_dict).
Local Abbreviation outcome_of := (outcome_of path_exists img_dict).

(** ** The loop body, case by case *)

Lemma check_no_image (ann : annotation) :
  img_dict_get img_dict (image_id ann) = None → check ann = Drop MissingImage.
Proof. intros H. unfold Validator.check. rewrite H. reflexivity. Qed.

Lemma check_no_file_name (ann : annotation) (img : image) :
  img_dict_get img_dict (image_id ann) = Some img →
  file_name img = None →
  check ann = Raise (KeyError "file_name").
Proof. intros H1 H2. unfold Validator.check. rewrite H1, H2. reflexivity. Qed.

Lemma check_no_file (ann : annotation) (img : image) (fn : string) :
  img_dict_get img_dict (image_id ann) = Some img →
  file_name img = Some fn →
  path_exists (path_join imgs fn) = false →
  check ann = Drop MissingImage.
Proof. intros H1 H2 H3. unfold Validator.check. rewrite H1, H2, H3. reflexivity. Qed.

Lemma check_image_ok (ann : annotation) :
  image_resolves path_exists img_dict ann →
  check ann = check_bbox (default JNull (bbox ann)).
Proof.
  intros (img & fn & H1 & H2 & H3). unfold Validator.check.
  rewrite H1, H2, H3. reflexivity.
Qed.

Lemma image_file_missing_or_resolves_or_raises (ann : annotation) :
  image_file_missing path_exists img_dict ann ∨
  image_resolves path_exists img_dict ann ∨
  check ann = Raise (KeyError "file_name").
Proof.
  unfold image_file_missing, image_resolves.
  destruct (img_dict_get img_dict (image_id ann)) as [img|] eqn:Hget; [|by left; left].
  destruct (file_name img) as [fn|] eqn:Hfn.
  - destruct (path_exists (path_join imgs fn)) eqn:Hex.
    + right; left. eauto.
    + left; right. eauto.
  - right; right. by apply check_no_file_name with img.
Qed.

Lemma image_file_missing_not_resolves (ann : annotation) :
  image_file_missing path_exists img_dict ann → ¬ image_resolves path_exists img_dict ann.
Proof.
  intros [Hnone | (img & fn & H1 & H2 & H3)] (img' & fn' & H1' & H2' & H3'); congruence.
Qed.

Lemma check_bbox_falsy (b : json) : truthy b = false → check_bbox b = Drop MissingBbox.
Proof. intros H. unfold check_bbox. rewrite H. reflexivity. Qed.

Lemma check_bbox_wrong_length (b : json) (n : nat) :
  py_len b = inr n → n ≠ 4%nat → check_bbox b = Drop MissingBbox.
Proof.
  intros Hlen Hn. unfold check_bbox. destruct (truthy b); [|reflexivity]. simpl.
  rewrite Hlen. apply Nat.eqb_neq in Hn. rewrite Hn. reflexivity.
Qed.

Lemma check_bbox_four (b x y w h : json) :
  py_iter b = Some [x; y; w; h] → check_bbox b = check_geometry x y w h.
Proof.
  intros Hit. unfold check_bbox.
  rewrite (iter_nonempty_truthy _ _ _ Hit). simpl.
  unfold py_len. rewrite Hit. reflexivity.
Qed.

Lemma check_bbox_not_sized (b : json) :
  truthy b = true → py_iter b = None → check_bbox b = Raise TypeError.
Proof. intros Ht Hit. unfold check_bbox, py_len. rewrite Ht, Hit. reflexivity. Qed.

(** Every bbox value falls in one of the four cases above. *)
Lemma bbox_cases (b : json) :
  truthy b = false ∨
  (truthy b = true ∧ py_iter b = None) ∨
  (∃ n, py_len b = inr n ∧ n ≠ 4%nat) ∨
  (∃ x y w h, py_iter b = Some [x; y; w; h]).
Proof.
  destruct (truthy b) eqn:Ht; [|by left]. right.
  destruct (py_iter b) as [items|] eqn:Hit; [|by left]. right.
  destruct items as [|x [|y [|w [|h [|z items]]]]].
  5: { right. eauto 6. }
  all: left; eexists; split; [apply py_len_iter; eauto | simpl; lia].
Qed.

Lemma check_geometry_drop_inv (x y w h : json) (r : drop_rule) :
  check_geometry x y w h = Drop r →
  (r = BadSize ∧ (py_le0 w = inr true ∨ py_le0 h = inr true)) ∨
  (r = NegativeXY ∧ py_le0 w = inr false ∧ py_le0 h = inr false ∧
   (py_lt0 x = inr true ∨ py_lt0 y = inr true)).
Proof.
  unfold check_geometry, py_or, bind, ret.
  destruct (py_le0 w) as [e|[|]]; [discriminate | intros [= <-]; left; eauto |].
  destruct (py_le0 h) as [e|[|]]; [discriminate | intros [= <-]; left; eauto |].
  destruct (py_lt0 x) as [e|[|]]; [discriminate | intros [= <-]; right; eauto 6 |].
  destruct (py_lt0 y) as [e|[|]]; [discriminate | intros [= <-]; right; eauto 6 |].
  discriminate.
Qed.

Lemma check_geometry_accept (x y w h : json) :
  positive_number w → positive_number h →
  nonnegative_number x → nonnegative_number y →
  check_geometry x y w h = Accept.
Proof.
  intros Hw Hh Hx Hy. unfold check_geometry, py_or, bind, ret.
  rewrite (positive_not_le0 _ Hw), (positive_not_le0 _ Hh).
  rewrite (nonnegative_not_lt0 _ Hx), (nonnegative_not_lt0 _ Hy). reflexivity.
Qed.

Lemma check_geometry_numbers (x y w h : json) :
  is_number x → is_number y → is_number w → is_number h →
  ∀ e, check_geometry x y w h ≠ Raise e.
Proof.
  intros Hx Hy Hw Hh e.
  destruct (number_lt0_returns _ Hx) as [bx Ex], (number_lt0_returns _ Hy) as [by' Ey].
  destruct (number_le0_returns _ Hw) as [bw Ew], (number_le0_returns _ Hh) as [bh Eh].
  unfold check_geometry, py_or, bind, ret. rewrite Ex, Ey, Ew, Eh.
  destruct bw, bh, bx, by'; discriminate.
Qed.

(** ** The verdict and the rules *)

Lemma geometry_accept_inv (x y w h : json) :
  check_geometry x y w h = Accept →
  py_le0 w = inr false ∧ py_le0 h = inr false ∧
  py_lt0 x = inr false ∧ py_lt0 y = inr false.
Proof.
  unfold check_geometry, py_or, bind, ret.
  destruct (py_le0 w) as [e|[|]]; try discriminate.
  destruct (py_le0 h) as [e|[|]]; try discriminate.
  destruct (py_lt0 x) as [e|[|]]; try discriminate.
  destruct (py_lt0 y) as [e|[|]]; try discriminate.
  auto.
Qed.

Lemma four_not_empty_or_wrong_length (ann : annotation) (x y w h : json) :
  py_iter (default JNull (bbox ann)) = Some [x; y; w; h] → ¬ bbox_empty_or_wrong_length ann.
Proof.
  intros Hit [Hf | (n & Hlen & Hn)].
  - rewrite (iter_nonempty_truthy _ _ _ Hit) in Hf. discriminate.
  - apply py_len_iter in Hlen as (items & Hit' & <-).
    rewrite Hit in Hit'. injection Hit' as <-. apply Hn. reflexivity.
Qed.

Lemma check_outcome (ann : annotation) : outcome_of ann (check ann).
Proof.
  destruct (image_file_missing_or_resolves_or_raises ann) as [Hm | [Hr | He]].
  - assert (check ann = Drop MissingImage) as ->; [|by constructor].
    destruct Hm as [Hn | (img & fn & H1 & H2 & H3)];
      eauto using check_no_image, check_no_file.
  - rewrite (check_image_ok _ Hr).
    destruct (bbox_cases (default JNull (bbox ann)))
      as [Hf | [[Ht Hn] | [(n & Hl & Hn) | (x & y & w & h & Hit)]]].
    + rewrite (check_bbox_falsy _ Hf). constructor; [done | by left].
    + rewrite (check_bbox_not_sized _ Ht Hn). by constructor.
    + rewrite (check_bbox_wrong_length _ _ Hl Hn). constructor; [done | right; eauto].
    + rewrite (check_bbox_four _ _ _ _ _ Hit). by constructor.
  - rewrite He. constructor.
Qed.

Lemma drop_is_first_applicable_as_amended (ann : annotation) (r : drop_rule) :
  check ann = Drop r → first_applicable_as_amended path_exists img_dict r ann.
Proof.
  intros Hc. pose proof (check_outcome ann) as Ho. rewrite Hc in Ho.
  inversion Ho as [Hm | | Hr Hb | | x y w h Hr Hit Hg]; subst.
  - split; [done |]. intros r' Hlt. simpl in Hlt. lia.
  - split; [done |]. intros [] Hlt; simpl in Hlt; try lia.
    simpl. intros Hm. by apply (image_file_missing_not_resolves ann).
  - destruct (check_geometry_drop_inv _ _ _ _ _ Hg)
      as [[-> Hwh] | (-> & Hw & Hh & Hxy)].
    + split; [simpl; red; eauto 8 |].
      intros [] Hlt; simpl in Hlt; try lia; simpl.
      * intros Hm. by apply (image_file_missing_not_resolves ann).
      * by apply four_not_empty_or_wrong_length with x y w h.
    + split; [simpl; red; eauto 8 |].
      intros [] Hlt; simpl in Hlt; try lia; simpl.
      * intros Hm. by apply (image_file_missing_not_resolves ann).
      * by apply four_not_empty_or_wrong_length with x y w h.
      * intros (x' & y' & w' & h' & Hit' & Hwh).
        rewrite Hit in Hit'. injection Hit' as <- <- <- <-.
        destruct Hwh; congruence.
Qed.

Lemma accept_no_rule (ann : annotation) (r : drop_rule) :
  check ann = Accept → ¬ applicable_as_amended path_exists img_dict r ann.
Proof.
  intros Hc. pose proof (check_outcome ann) as Ho. rewrite Hc in Ho.
  inversion Ho as [ | | | | x y w h Hr Hit Hg]; subst.
  apply geometry_accept_inv in Hg as (Hw & Hh & Hx & Hy).
  destruct r; simpl.
  - intros Hm. by apply (image_file_missing_not_resolves ann).
  - by apply four_not_empty_or_wrong_length with x y w h.
  - intros (x' & y' & w' & h' & Hit' & Hwh).
    rewrite Hit in Hit'. injection Hit' as <- <- <- <-. destruct Hwh; congruence.
  - intros (x' & y' & w' & h' & Hit' & Hxy).
    rewrite Hit in Hit'. injection Hit' as <- <- <- <-. destruct Hxy; congruence.
Qed.

Lemma rank_inj (r r' : drop_rule) : rank r = rank r' → r = r'.
Proof. destruct r, r'; simpl; intros H; try reflexivity; discriminate H. Qed.

Lemma first_applicable_as_amended_unique (ann : annotation) (r r' : drop_rule) :
  first_applicable_as_amended path_exists img_dict r ann →
  first_applicable_as_amended path_exists img_dict r' ann →
  r = r'.
Proof.
  intros [Ha Hmin] [Ha' Hmin'].
  destruct (lt_eq_lt_dec (rank r) (rank r')) as [[Hlt | Heq] | Hgt].
  - destruct (Hmin' r Hlt Ha).
  - by apply rank_inj.
  - destruct (Hmin r' Hgt Ha').
Qed.

Lemma first_applicable_as_amended_is_drop (ann : annotation) (r : drop_rule) :
  completes ann → first_applicable_as_amended path_exists img_dict r ann →
  check ann = Drop r.
Proof.
  intros Hc Hf. destruct (check ann) as [ | r0 | e] eqn:E.
  - destruct (accept_no_rule ann r E). apply Hf.
  - f_equal. apply (first_applicable_as_amended_unique ann);
      [by apply drop_is_first_applicable_as_amended | done].
  - destruct (Hc e E).
Qed.

(** ** Where the specification's rules and the amended rules agree *)

Lemma image_rules_agree (ann : annotation) :
  image_named img_dict ann →
  (image_missing path_exists img_dict ann ↔ image_file_missing path_exists img_dict ann).
Proof.
  intros Hnamed. unfold image_missing, image_file_missing. split.
  - intros [H | (img & Hget & [Hnone | (fn & Hfn & Hex)])]; [by left | | right; eauto].
    destruct (Hnamed img Hget) as [fn Hfn]. congruence.
  - intros [H | (img & fn & Hget & Hfn & Hex)]; [by left | right; eauto 6].
Qed.

Lemma four_numbers_length (l : list json) :
  Forall is_number l → (four_numeric_components (JList l) ↔ length l = 4%nat).
Proof.
  intros Hall. split.
  - intros (x & y & w & h & [= ->] & _). reflexivity.
  - intros Hlen. destruct l as [|x [|y [|w [|h [|z l]]]]]; try discriminate Hlen.
    exists x, y, w, h. split; [reflexivity |].
    apply Forall_cons in Hall as [Hx Hall]. apply Forall_cons in Hall as [Hy Hall].
    apply Forall_cons in Hall as [Hw Hall]. apply Forall_cons in Hall as [Hh _].
    auto.
Qed.

Lemma bbox_rules_agree (ann : annotation) :
  bbox_of_numbers ann → (bbox_missing ann ↔ bbox_empty_or_wrong_length ann).
Proof.
  unfold bbox_missing, bbox_empty_or_wrong_length.
  intros [Hb | [Hb | (l & Hb & Hall)]]; rewrite Hb.
  - split; intros _; by left.
  - split; intros _; [by left | right; by left].
  - change (default JNull (Some (JList l))) with (JList l).
    pose proof (four_numbers_length l Hall) as Hfour. split.
    + intros [H | [H | (v & [= <-] & Hv)]]; try discriminate H.
      right. exists (length l). split; [reflexivity | tauto].
    + intros Hr. right; right. exists (JList l). split; [reflexivity |].
      rewrite Hfour. destruct Hr as [Hf | (n & [= <-] & Hn)]; [|exact Hn].
      destruct l; [discriminate | discriminate Hf].
Qed.

Lemma rules_agree (ann : annotation) (r : drop_rule) :
  image_named img_dict ann → bbox_of_numbers ann →
  (first_applicable path_exists img_dict r ann ↔
   first_applicable_as_amended path_exists img_dict r ann).
Proof.
  intros Hn Hb.
  assert (∀ r', applicable path_exists img_dict r' ann ↔
                applicable_as_amended path_exists img_dict r' ann) as Hsame.
  { intros []; cbn [applicable applicable_as_amended];
      [by apply image_rules_agree | by apply bbox_rules_agree | tauto | tauto]. }
  unfold first_applicable, first_applicable_as_amended. rewrite Hsame.
  split; intros [Ha Hmin]; (split; [exact Ha |]); intros r' Hlt Hr'; apply (Hmin r' Hlt);
    by apply Hsame.
Qed.

Lemma numbers_complete (ann : annotation) :
  image_named img_dict ann → bbox_of_numbers ann → completes ann.
Proof.
  intros Hn Hb e. unfold Validator.check.
  destruct (img_dict_get img_dict (image_id ann)) as [img|] eqn:Hget; [|discriminate].
  destruct (Hn img Hget) as [fn ->].
  destruct (path_exists (path_join imgs fn)); cbn [negb]; [|discriminate].
  destruct Hb as [Hb | [Hb | (l & Hb & Hall)]]; rewrite Hb; [discriminate.. |].
  change (default JNull (Some (JList l))) with (JList l).
  destruct l as [|x [|y [|w [|h [|z l]]]]]; try discriminate.
  rewrite (check_bbox_four (JList [x; y; w; h]) x y w h eq_refl).
  apply Forall_cons in Hall as [Hx Hall]. apply Forall_cons in Hall as [Hy Hall].
  apply Forall_cons in Hall as [Hw Hall]. apply Forall_cons in Hall as [Hh _].
  by apply check_geometry_numbers.
Qed.

(** ** The loop *)

Lemma tagged_drop_reason (ann d : annotation) :
  tagged ann = Some d →
  ∃ r, check ann = Drop r ∧ d = set_drop_reason ann (reason_text r) ∧
       drop_reason d = Some (reason_text r).
Proof.
  unfold Spec.tagged. destruct (check ann) as [ | r | e]; try discriminate.
  intros [= <-]. eauto.
Qed.

Lemma validation_loop_returns (anns c d c' d' : list annotation) :
  validation_loop anns c d = inr (c', d') ↔
  Forall completes anns ∧
  c' = c ++ List.filter accepted anns ∧
  d' = d ++ omap tagged anns.
Proof.
  revert c d. induction anns as [|ann anns IH]; intros c d; simpl.
  - rewrite !app_nil_r. unfold ret. split.
    + intros [= <- <-]. auto.
    + intros (_ & -> & ->). reflexivity.
  - rewrite Forall_cons. unfold Spec.accepted at 1, Spec.tagged at 1.
    destruct (check ann) as [ | r | e] eqn:E; simpl.
    + rewrite IH, <- !app_assoc. simpl.
      assert (completes ann) by (intros e; congruence). tauto.
    + rewrite IH, <- !app_assoc. simpl.
      assert (completes ann) by (intros e; congruence). tauto.
    + unfold raise. split; [discriminate |].
      intros ((Hann & _) & _). destruct (Hann e E).
Qed.

Lemma validation_loop_raises (anns c d : list annotation) (e : exn) :
  validation_loop anns c d = inl e ↔
  ∃ before ann after, anns = before ++ ann :: after ∧
                      Forall completes before ∧ check ann = Raise e.
Proof.
  revert c d. induction anns as [|ann anns IH]; intros c d; simpl.
  - split; [discriminate |]. intros (b & a & af & H & _).
    by destruct b.
  - destruct (check ann) as [ | r | e'] eqn:E.
    + rewrite IH. split.
      * intros (b & a & af & -> & Hb & Ha). exists (ann :: b), a, af.
        split; [done |]. split; [|done]. constructor; [|done]. intros e0. congruence.
      * intros (b & a & af & Heq & Hb & Ha). destruct b as [|b0 b]; simplify_eq/=.
        { congruence. }
        apply Forall_cons in Hb as [_ Hb]. eauto 8.
    + rewrite IH. split.
      * intros (b & a & af & -> & Hb & Ha). exists (ann :: b), a, af.
        split; [done |]. split; [|done]. constructor; [|done]. intros e0. congruence.
      * intros (b & a & af & Heq & Hb & Ha). destruct b as [|b0 b]; simplify_eq/=.
        { congruence. }
        apply Forall_cons in Hb as [_ Hb]. eauto 8.
    + unfold raise. split.
      * intros [= ->]. exists [], ann, anns. auto.
      * intros (b & a & af & Heq & Hb & Ha). destruct b as [|b0 b]; simplify_eq/=.
        -- congruence.
        -- apply Forall_cons in Hb as [Hb0 _]. destruct (Hb0 e' E).
Qed.

Lemma accepted_or_tagged_length (anns : list annotation) :
  Forall completes anns →
  (length (List.filter accepted anns) + length (omap tagged anns) = length anns)%nat.
Proof.
  induction 1 as [|ann anns Hann _ IH]; [reflexivity |].
  cbn [List.filter omap list_omap length].
  unfold Spec.accepted at 1, Spec.tagged at 1.
  destruct (check ann) as [ | r | e] eqn:E; cbn [length].
  - lia.
  - lia.
  - destruct (Hann e E).
Qed.

Lemma filter_bool_sublist {A} (f : A → bool) (l : list A) : sublist (List.filter f l) l.
Proof.
  induction l as [|a l IH]; simpl; [constructor |].
  destruct (f a); by constructor.
Qed.

Lemma omap_tagged_rejected (anns : list annotation) :
  Forall2 (fun ann d => tagged ann = Some d) (List.filter rejected anns) (omap tagged anns).
Proof.
  induction anns as [|ann anns IH]; cbn [List.filter omap list_omap]; [constructor |].
  assert (rejected ann = match tagged ann with Some _ => true | None => false end) as ->.
  { unfold Spec.rejected, Spec.tagged. by destruct (check ann). }
  destruct (tagged ann) as [d|] eqn:E; [|exact IH].
  constructor; [exact E | exact IH].
Qed.

End ValidatorFacts.

(** ** Whole runs *)

Section ValidatorRuns.

Variable path_exists : string -> bool.

Local Abbreviation validate := (validate path_exists).

Lemma limited_sublist (subset_limit : option Z) (anns : list annotation) :
  sublist (limited subset_limit anns) anns.
Proof.
  unfold limited. destruct (limit_set subset_limit); [|done].
  destruct subset_limit as [n|]; [|done].
  unfold slice_to. destruct (0 <=? n); apply sublist_take.
Qed.

Lemma limited_none (anns : list annotation) : limited None anns = anns.
Proof. reflexivity. Qed.

Lemma limited_zero (anns : list annotation) : limited (Some 0) anns = anns.
Proof. reflexivity. Qed.

Lemma limited_positive (n : Z) (anns : list annotation) :
  0 < n → limited (Some n) anns = take (Z.to_nat n) anns.
Proof.
  intros Hn. unfold limited, limit_set.
  destruct (n =? 0) eqn:E; [apply Z.eqb_eq in E; lia |]. simpl.
  apply slice_to_positive. lia.
Qed.

Lemma limited_negative (n : Z) (anns : list annotation) :
  n < 0 → limited (Some n) anns = take (length anns - Z.to_nat (- n)) anns.
Proof.
  intros Hn. unfold limited, limit_set.
  destruct (n =? 0) eqn:E; [apply Z.eqb_eq in E; lia |]. simpl.
  by apply slice_to_negative.
Qed.

Lemma validate_returns (subset_limit : option Z) (data : collection) (out : outputs) :
  validate subset_limit data = inr out ↔
  Forall (completes path_exists (index_of data)) (processed subset_limit data) ∧
  out = {| clean_data :=
             with_annotations data
               (List.filter (accepted path_exists (index_of data)) (processed subset_limit data));
           dropped := omap (tagged path_exists (index_of data)) (processed subset_limit data) |}.
Proof.
  unfold Validator.validate, bind, ret.
  fold (index_of data). fold (processed subset_limit data).
  destruct (validation_loop path_exists (index_of data) (processed subset_limit data) [] [])
    as [e | [c d]] eqn:E.
  - split; [discriminate |]. intros [Hall _].
    apply validation_loop_raises in E as (b & a & af & Heq & _ & Ha).
    rewrite Heq in Hall. apply Forall_app in Hall as [_ Hall].
    apply Forall_cons in Hall as [Hc _]. destruct (Hc e Ha).
  - apply validation_loop_returns in E as (Hall & -> & ->). simpl. split.
    + intros [= <-]. auto.
    + intros [_ ->]. reflexivity.
Qed.

Lemma validate_raises (subset_limit : option Z) (data : collection) (e : exn) :
  validate subset_limit data = inl e ↔
  ∃ before ann after,
    processed subset_limit data = before ++ ann :: after ∧
    Forall (completes path_exists (index_of data)) before ∧
    check path_exists (index_of data) ann = Raise e.
Proof.
  rewrite <- validation_loop_raises with (c := []) (d := []).
  unfold Validator.validate, bind, ret.
  fold (index_of data). fold (processed subset_limit data).
  destruct (validation_loop path_exists (index_of data) (processed subset_limit data) [] [])
    as [e' | [c d]]; split; try discriminate; by intros [= ->].
Qed.

Lemma validate_same_annotations (subset_limit : option Z) (data : collection) :
  validate subset_limit data =
  validate None (with_annotations data (processed subset_limit data)).
Proof. reflexivity. Qed.

End ValidatorRuns.

(** ** The scenario of the specification, evaluated *)

Example scenario_run :
  validate Examples.only_a_png None Examples.scenario =
  inr {| clean_data := with_annotations Examples.scenario [Examples.ann10];
         dropped := [set_drop_reason Examples.ann11 "zero/negative width or height";
                     set_drop_reason Examples.ann12 "missing image"] |}.
Proof. vm_compute. reflexivity. Qed.

Example all_wrong_is_missing_image :
  check Examples.only_a_png (index_of Examples.scenario) Examples.ann_all_wrong
  = Drop MissingImage.
Proof. vm_compute. reflexivity. Qed.

Example size_before_origin :
  check Examples.only_a_png (index_of Examples.scenario) Examples.ann_size_and_origin
  = Drop BadSize.
Proof. vm_compute. reflexivity. Qed.

Example float_box_accepted :
  check Examples.only_a_png (index_of Examples.scenario) Examples.ann_float_box = Accept.
Proof. vm_compute. reflexivity. Qed.

(** ** Precedence of the drop rules *)

(** C1, as stated, fails: the annotation's image resolves and its bbox has
    four components of which one is not a number, so the first rule that
    applies, in the order and the words of the specification, is "missing
    bbox"; its width is 0, so "zero/negative width or height" applies as
    well; the loop records the latter. *)
Lemma mixed_bbox_is_dropped_for_its_size :
  first_applicable Examples.only_a_png (index_of Examples.mixed_box_data)
    MissingBbox Examples.ann_mixed_box ∧
  applicable Examples.only_a_png (index_of Examples.mixed_box_data)
    BadSize Examples.ann_mixed_box ∧
  check Examples.only_a_png (index_of Examples.mixed_box_data) Examples.ann_mixed_box
    = Drop BadSize ∧
  validate Examples.only_a_png None Examples.mixed_box_data
    = inr {| clean_data := with_annotations Examples.mixed_box_data [];
             dropped := [set_drop_reason Examples.ann_mixed_box
                           "zero/negative width or height"] |}.
Proof.
  split; [|split; [|split; vm_compute; reflexivity]].
  - split.
    + right; right. eexists. split; [reflexivity |].
      intros (x & y & w & h & [= <- <- <- <-] & _ & Hy & _). exact Hy.
    + intros [] Hlt; cbn [rank] in Hlt; try lia.
      intros [Hnone | (img & Hget & [Hfn | (fn & Hfn & Hex)])].
      * vm_compute in Hnone. discriminate Hnone.
      * vm_compute in Hget. injection Hget as <-. discriminate Hfn.
      * vm_compute in Hget. injection Hget as <-. injection Hfn as <-.
        vm_compute in Hex. discriminate Hex.
  - exists (JInt 0), (JStr "a"), (JInt 0), (JInt 5). split; [reflexivity |].
    left. reflexivity.
Qed.

(** C1, amended. The rules the loop tests are: missing image (the
    [image_id] has no entry in the index, or the indexed image has a
    [file_name] and no such file exists), missing bbox (the bbox is absent,
    null, otherwise empty, or of a length other than 4, whatever its
    components are), zero/negative width or height, negative x or y.
    Whenever the loop body finishes on an annotation without raising, it
    drops the annotation for rule [r] exactly when [r] is the first of these
    rules, in that order, that the annotation fails; and in a finished run
    every element of the dropped list is a processed annotation whose
    [drop_reason] has been set to the text of that one rule. For an
    annotation whose indexed image, if any, has a [file_name] and whose bbox
    is absent, null or a list of numbers, the loop body does finish, and the
    rule recorded is the first applicable rule in the words of the
    specification. *)
Theorem drop_reason_is_first_applicable_rule (path_exists : string → bool) :
  (∀ (img_dict : gmap Z image) (ann : annotation) (r : drop_rule),
     completes path_exists img_dict ann →
     (check path_exists img_dict ann = Drop r ↔
      first_applicable_as_amended path_exists img_dict r ann)) ∧
  (∀ (subset_limit : option Z) (data : collection) (out : outputs),
     validate path_exists subset_limit data = inr out →
     Forall (fun d =>
               ∃ ann r, ann ∈ processed subset_limit data ∧
                        first_applicable_as_amended path_exists (index_of data) r ann ∧
                        d = set_drop_reason ann (reason_text r) ∧
                        drop_reason d = Some (reason_text r))
            (dropped out)) ∧
  (∀ (img_dict : gmap Z image) (ann : annotation) (r : drop_rule),
     image_named img_dict ann → bbox_of_numbers ann →
     completes path_exists img_dict ann ∧
     (check path_exists img_dict ann = Drop r ↔
      first_applicable path_exists img_dict r ann)).
Proof.
  assert (∀ (img_dict : gmap Z image) (ann : annotation) (r : drop_rule),
            completes path_exists img_dict ann →
            (check path_exists img_dict ann = Drop r ↔
             first_applicable_as_amended path_exists img_dict r ann)) as Hfirst.
  { intros img_dict ann r Hc. split.
    - apply drop_is_first_applicable_as_amended.
    - by apply first_applicable_as_amended_is_drop. }
  split; [exact Hfirst |]. split.
  - intros subset_limit data out Hrun.
    apply validate_returns in Hrun as [Hall ->]. simpl.
    apply Forall_forall. intros d Hd.
    apply list_elem_of_omap in Hd as (ann & Hin & Htag).
    apply tagged_drop_reason in Htag as (r & Hcheck & -> & Hreason).
    exists ann, r. split; [done |]. split; [|done].
    by apply drop_is_first_applicable_as_amended.
  - intros img_dict ann r Hn Hb.
    pose proof (numbers_complete path_exists img_dict ann Hn Hb) as Hc.
    split; [exact Hc |]. rewrite (rules_agree path_exists img_dict ann r Hn Hb).
    by apply Hfirst.
Qed.

Lemma drop_reason_is_first_applicable_rule_witness :
  completes Examples.only_a_png (index_of Examples.scenario) Examples.ann_all_wrong ∧
  (check Examples.only_a_png (index_of Examples.scenario) Examples.ann_all_wrong
     = Drop MissingImage ↔
   first_applicable_as_amended Examples.only_a_png (index_of Examples.scenario)
     MissingImage Examples.ann_all_wrong).
Proof.
  split.
  - intros e. vm_compute. discriminate.
  - apply (proj1 (drop_reason_is_first_applicable_rule Examples.only_a_png)).
    intros e. vm_compute. discriminate.
Defined.

(** ** An image record without a file name *)

(** C3, as stated, fails: the annotation of an image that has no
    [file_name] key is not dropped; the lookup raises and the run ends
    without output. *)
Lemma missing_file_name_is_not_dropped :
  img_dict_get (index_of Examples.unnamed_data) (image_id Examples.ann_of_unnamed)
    = Some Examples.image_unnamed ∧
  file_name Examples.image_unnamed = None ∧
  check Examples.only_a_png (index_of Examples.unnamed_data) Examples.ann_of_unnamed
    ≠ Drop MissingImage ∧
  validate Examples.only_a_png None Examples.unnamed_data = inl (KeyError "file_name").
Proof.
  split; [vm_compute; reflexivity |]. split; [reflexivity |].
  split; [vm_compute; discriminate | vm_compute; reflexivity].
Qed.

(** C3, amended. For an annotation whose [image_id] is in the index but
    whose image has no [file_name] key, the loop body raises [KeyError]; a
    run that processes such an annotation fails, and it fails with that
    [KeyError] when the annotations before it are processed without error. *)
Theorem missing_file_name_raises (path_exists : string → bool)
    (subset_limit : option Z) (data : collection) (ann : annotation) (img : image) :
  ann ∈ processed subset_limit data →
  img_dict_get (index_of data) (image_id ann) = Some img →
  file_name img = None →
  check path_exists (index_of data) ann = Raise (KeyError "file_name") ∧
  (∃ e, validate path_exists subset_limit data = inl e) ∧
  (∀ before after,
     processed subset_limit data = before ++ ann :: after →
     Forall (completes path_exists (index_of data)) before →
     validate path_exists subset_limit data = inl (KeyError "file_name")).
Proof.
  intros Hin Hget Hfn.
  pose proof (check_no_file_name path_exists _ _ _ Hget Hfn) as Hraise.
  split; [done |]. split.
  - destruct (validate path_exists subset_limit data) as [e | out] eqn:E; [eauto |].
    apply validate_returns in E as [Hall _].
    rewrite Forall_forall in Hall. destruct (Hall ann Hin _ Hraise).
  - intros before after Heq Hbefore. apply validate_raises. eauto 6.
Qed.

Lemma missing_file_name_raises_witness :
  Examples.ann_of_unnamed ∈ processed None Examples.unnamed_data ∧
  check Examples.only_a_png (index_of Examples.unnamed_data) Examples.ann_of_unnamed
    = Raise (KeyError "file_name") ∧
  ∃ e, validate Examples.only_a_png None Examples.unnamed_data = inl e.
Proof.
  assert (Examples.ann_of_unnamed ∈ processed None Examples.unnamed_data) as Hin.
  { vm_compute. apply list_elem_of_In. right. left. reflexivity. }
  split; [exact Hin |].
  destruct (missing_file_name_raises Examples.only_a_png None Examples.unnamed_data
              Examples.ann_of_unnamed Examples.image_unnamed)
    as (H1 & H2 & _).
  - exact Hin.
  - vm_compute. reflexivity.
  - reflexivity.
  - split; [exact H1 | exact H2].
Defined.

(** ** The missing-bbox rule *)



Lemma geometry_width_type_error (x y w h : json) :
  py_le0 w = inl TypeError → check_geometry x y w h = Raise TypeError.
Proof. intros H. unfold check_geometry, py_or, bind. rewrite H. reflexivity. Qed.



(** ** Valid annotations are kept *)

Lemma valid_is_accepted (path_exists : string → bool) (img_dict : gmap Z image)
    (ann : annotation) (x y w h : json) :
  image_resolves path_exists img_dict ann →
  bbox ann = Some (JList [x; y; w; h]) →
  positive_number w → positive_number h →
  nonnegative_number x → nonnegative_number y →
  check path_exists img_dict ann = Accept.
Proof.
  intros Hres Hb Hw Hh Hx Hy. rewrite (check_image_ok _ _ _ Hres).
  rewrite (check_bbox_four _ x y w h) by (rewrite Hb; reflexivity).
  by apply check_geometry_accept.
Qed.

(** C5. An annotation with bbox [x, y, w, h], [w > 0], [h > 0], [x >= 0],
    [y >= 0], whose [image_id] resolves to an existing image file, is
    accepted by the loop body; in the output of a run that processes it, it
    is an element of the cleaned annotations as it was in the input (the
    loop sets [drop_reason] only on dropped ones), and the cleaned
    annotations are the accepted ones in their input order, a subsequence of
    the input. With the script's own [subset_limit = None] every input
    annotation is processed. *)
Theorem valid_annotation_is_kept (path_exists : string → bool)
    (subset_limit : option Z) (data : collection) (out : outputs)
    (ann : annotation) (x y w h : json) :
  validate path_exists subset_limit data = inr out →
  ann ∈ processed subset_limit data →
  image_resolves path_exists (index_of data) ann →
  bbox ann = Some (JList [x; y; w; h]) →
  positive_number w → positive_number h →
  nonnegative_number x → nonnegative_number y →
  check path_exists (index_of data) ann = Accept ∧
  ann ∈ default [] (annotations (clean_data out)) ∧
  annotations (clean_data out)
    = Some (List.filter (accepted path_exists (index_of data)) (processed subset_limit data)) ∧
  sublist (default [] (annotations (clean_data out))) (default [] (annotations data)) ∧
  processed None data = default [] (annotations data).
Proof.
  intros Hrun Hin Hres Hb Hw Hh Hx Hy.
  pose proof (valid_is_accepted _ _ _ _ _ _ _ Hres Hb Hw Hh Hx Hy) as Hacc.
  apply validate_returns in Hrun as [_ ->]. simpl.
  split; [exact Hacc |]. split; [|split; [reflexivity |split; [|reflexivity]]].
  - apply list_elem_of_In, filter_In. split; [by apply list_elem_of_In |].
    unfold accepted. by rewrite Hacc.
  - etrans; [apply filter_bool_sublist | apply limited_sublist].
Qed.

Lemma valid_annotation_is_kept_witness :
  validate Examples.only_a_png None Examples.scenario
    = inr {| clean_data := with_annotations Examples.scenario [Examples.ann10];
             dropped := [set_drop_reason Examples.ann11 "zero/negative width or height";
                         set_drop_reason Examples.ann12 "missing image"] |} ∧
  Examples.ann10 ∈ default [] (annotations
    (with_annotations Examples.scenario [Examples.ann10])).
Proof.
  split; [vm_compute; reflexivity |].
  refine (proj1 (proj2 (valid_annotation_is_kept Examples.only_a_png None Examples.scenario
    {| clean_data := with_annotations Examples.scenario [Examples.ann10];
       dropped := [set_drop_reason Examples.ann11 "zero/negative width or height";
                   set_drop_reason Examples.ann12 "missing image"] |}
    Examples.ann10 (JInt 5) (JInt 5) (JInt 20) (JInt 20) _ _ _ _ _ _ _ _))).
  - vm_compute. reflexivity.
  - vm_compute. apply list_elem_of_In. left. reflexivity.
  - exists Examples.image_a, "a.png"%string. repeat split; vm_compute; reflexivity.
  - reflexivity.
  - simpl. lia.
  - simpl. lia.
  - simpl. lia.
  - simpl. lia.
Defined.

(** ** The cap on the number of annotations *)

(** C9, as stated, fails for [N = 0]: a cap of zero is treated as no cap,
    and all annotations are processed instead of none. *)
Lemma zero_cap_processes_everything :
  processed (Some 0) Examples.scenario = [Examples.ann10; Examples.ann11; Examples.ann12] ∧
  processed (Some 0) Examples.scenario
    ≠ take 0 (default [] (annotations Examples.scenario)) ∧
  validate Examples.only_a_png (Some 0) Examples.scenario
    = validate Examples.only_a_png None Examples.scenario ∧
  validate Examples.only_a_png (Some 0) Examples.scenario
    ≠ validate Examples.only_a_png None (with_annotations Examples.scenario []).
Proof.
  split; [reflexivity |]. split; [discriminate |].
  split; [reflexivity | vm_compute; discriminate].
Qed.

(** C9, amended. For every positive cap [N] the validator processes exactly
    the first [N] annotations of the input, in order, and its result is that
    of an uncapped run on those alone; with no cap configured, and with
    [N = 0], all annotations are processed. *)
Theorem subset_limit_takes_first (path_exists : string → bool) (data : collection) :
  (∀ n, 0 < n →
     processed (Some n) data = take (Z.to_nat n) (default [] (annotations data)) ∧
     validate path_exists (Some n) data
       = validate path_exists None
           (with_annotations data (take (Z.to_nat n) (default [] (annotations data))))) ∧
  (processed (Some 0) data = default [] (annotations data) ∧
   validate path_exists (Some 0) data = validate path_exists None data) ∧
  processed None data = default [] (annotations data).
Proof.
  split; [|split; [split |]]; try reflexivity.
  intros n Hn.
  assert (processed (Some n) data = take (Z.to_nat n) (default [] (annotations data))) as Hp.
  { by apply limited_positive. }
  split; [exact Hp |].
  rewrite validate_same_annotations, Hp. reflexivity.
Qed.

Lemma subset_limit_takes_first_witness :
  0 < 2 ∧
  processed (Some 2) Examples.scenario = [Examples.ann10; Examples.ann11].
Proof.
  split; [lia |].
  apply (proj1 (proj1 (subset_limit_takes_first Examples.only_a_png Examples.scenario) 2
                  ltac:(lia))).
Defined.

(** A negative cap drops annotations from the end instead. *)
Lemma negative_cap_drops_last (n : Z) (data : collection) :
  n < 0 →
  processed (Some n) data
  = take (length (default [] (annotations data)) - Z.to_nat (- n))
         (default [] (annotations data)).
Proof. apply limited_negative. Qed.

(** ** Accepted and dropped annotations partition the processed ones *)

Lemma accepted_not_rejected (path_exists : string → bool) (img_dict : gmap Z image)
    (ann : annotation) :
  completes path_exists img_dict ann →
  accepted path_exists img_dict ann = negb (rejected path_exists img_dict ann).
Proof.
  intros Hc. unfold accepted, rejected.
  destruct (check path_exists img_dict ann) as [ | r | e] eqn:E; try reflexivity.
  destruct (Hc e E).
Qed.

(** C10. With or without a cap, a run in which no annotation raises produces
    an output, and in every output each processed annotation went to exactly
    one of the two lists: the cleaned annotations are the accepted processed
    annotations in input order, the dropped list is the rejected processed
    annotations in input order, each tagged with its reason, and the two
    lengths add up to the number of annotations processed. *)
Theorem validation_partitions (path_exists : string → bool)
    (subset_limit : option Z) (data : collection) :
  (Forall (completes path_exists (index_of data)) (processed subset_limit data) →
   ∃ out, validate path_exists subset_limit data = inr out) ∧
  (∀ out, validate path_exists subset_limit data = inr out →
     (length (default [] (annotations (clean_data out))) + length (dropped out)
      = length (processed subset_limit data))%nat ∧
     default [] (annotations (clean_data out))
       = List.filter (accepted path_exists (index_of data)) (processed subset_limit data) ∧
     Forall2 (fun ann d => tagged path_exists (index_of data) ann = Some d)
       (List.filter (rejected path_exists (index_of data)) (processed subset_limit data))
       (dropped out) ∧
     (∀ ann, ann ∈ processed subset_limit data →
        accepted path_exists (index_of data) ann
        = negb (rejected path_exists (index_of data) ann)) ∧
     sublist (default [] (annotations (clean_data out))) (processed subset_limit data) ∧
     sublist (List.filter (rejected path_exists (index_of data)) (processed subset_limit data))
       (processed subset_limit data)).
Proof.
  split.
  - intros Hall. eexists. apply validate_returns. split; [exact Hall | reflexivity].
  - intros out Hrun. apply validate_returns in Hrun as [Hall ->]. simpl.
    split; [by apply accepted_or_tagged_length |].
    split; [reflexivity |].
    split; [apply omap_tagged_rejected |].
    split.
    + intros ann Hin. apply accepted_not_rejected.
      rewrite Forall_forall in Hall. by apply Hall.
    + split; apply filter_bool_sublist.
Qed.

Lemma validation_partitions_witness :
  validate Examples.only_a_png (Some 2) Examples.scenario
    = inr {| clean_data := with_annotations Examples.scenario [Examples.ann10];
             dropped := [set_drop_reason Examples.ann11 "zero/negative width or height"] |} ∧
  (length [Examples.ann10]
   + length [set_drop_reason Examples.ann11 "zero/negative width or height"])%nat
  = length (processed (Some 2) Examples.scenario).
Proof.
  assert (validate Examples.only_a_png (Some 2) Examples.scenario
    = inr {| clean_data := with_annotations Examples.scenario [Examples.ann10];
             dropped := [set_drop_reason Examples.ann11 "zero/negative width or height"] |})
    as Hrun by (vm_compute; reflexivity).
  split; [exact Hrun |].
  exact (proj1 (proj2 (validation_partitions Examples.only_a_png (Some 2) Examples.scenario)
                  _ Hrun)).
Defined.

(* ===================================================================== *)
(** * Properties of the dataset loader *)
(* ===================================================================== *)

(** ** Ordered dictionaries *)

Lemma dict_get_none {V} (k : string) (d : list (string * V)) :
  dict_get k d = None ↔ k ∉ dict_keys d.
Proof.
  induction d as [|[k' v] d IH]; simpl.
  - split; [intros _; apply not_elem_of_nil | done].
  - rewrite not_elem_of_cons, <- IH. destruct (String.eqb_spec k k') as [-> | Hne].
    + split; [discriminate | intros [Hk _]; by destruct Hk].
    + tauto.
Qed.

Lemma dict_get_set_eq {V} (k : string) (v : V) (d : list (string * V)) :
  dict_get k (dict_set k v d) = Some v.
Proof.
  induction d as [|[k' v'] d IH]; simpl.
  - by rewrite String.eqb_refl.
  - destruct (String.eqb_spec k k') as [-> | Hne]; simpl.
    + by rewrite String.eqb_refl.
    + apply String.eqb_neq in Hne. by rewrite Hne.
Qed.

Lemma dict_get_set_ne {V} (k k' : string) (v : V) (d : list (string * V)) :
  k ≠ k' → dict_get k' (dict_set k v d) = dict_get k' d.
Proof.
  intros Hne. induction d as [|[k0 v0] d IH]; simpl.
  - destruct (String.eqb_spec k' k); [congruence | reflexivity].
  - destruct (String.eqb_spec k k0) as [-> | Hne0]; simpl.
    + destruct (String.eqb_spec k' k0); [congruence | reflexivity].
    + by rewrite IH.
Qed.

Lemma dict_keys_set_present {V} (k : string) (v v0 : V) (d : list (string * V)) :
  dict_get k d = Some v0 → dict_keys (dict_set k v d) = dict_keys d.
Proof.
  induction d as [|[k' v'] d IH]; simpl; [discriminate |].
  destruct (String.eqb_spec k k') as [-> | Hne]; simpl; [done |].
  intros H. by rewrite IH.
Qed.

(** ** Loading *)

(** C7. Loading an identifier that is not a key of the catalog raises
    [ValueError]; the message interpolates the list of the catalog's keys,
    no file is opened and the instance is left as it was. *)
Theorem load_unknown_dataset (fs : file_system) (self : loader) (dataset_id : string) :
  dataset_id ∉ list_datasets self →
  load_dataset fs self dataset_id
  = {| self_after := self;
       opened := [];
       outcome := inl (ValueError (not_found_message dataset_id (list_datasets self))) |} ∧
  InterpList (list_datasets self) ∈ not_found_message dataset_id (list_datasets self).
Proof.
  intros Hnot. apply dict_get_none in Hnot. unfold load_dataset. rewrite Hnot.
  split; [reflexivity |].
  unfold not_found_message. do 3 apply list_elem_of_further. apply list_elem_of_here.
Qed.

Lemma load_unknown_dataset_witness :
  ("d2"%string ∉ list_datasets Examples.loader_d1) ∧
  load_dataset Examples.fs_scenario Examples.loader_d1 "d2"
  = {| self_after := Examples.loader_d1;
       opened := [];
       outcome := inl (ValueError [Lit "Dataset "; Interp "d2";
                                   Lit " not found. Available: ";
                                   InterpList ["d1"%string]]) |}.
Proof.
  assert ("d2"%string ∉ list_datasets Examples.loader_d1) as Hnot.
  { apply dict_get_none. reflexivity. }
  split; [exact Hnot |].
  exact (proj1 (load_unknown_dataset Examples.fs_scenario Examples.loader_d1 "d2" Hnot)).
Defined.

Lemma load_dataset_loaded (fs : file_system) (self : loader) (dataset_id : string)
    (entry : dataset_entry) :
  dict_get dataset_id (datasets self) = Some entry →
  loaded entry = true →
  load_dataset fs self dataset_id
  = {| self_after := self; opened := []; outcome := inr (data entry) |}.
Proof. intros Hget Hl. unfold load_dataset. rewrite Hget, Hl. reflexivity. Qed.

Lemma load_dataset_fresh (fs : file_system) (self : loader) (dataset_id : string)
    (entry : dataset_entry) (parsed : collection) :
  dict_get dataset_id (datasets self) = Some entry →
  loaded entry = false →
  fs_load fs (annotations_path entry) = inr parsed →
  load_dataset fs self dataset_id
  = {| self_after :=
         {| base_path := base_path self;
            datasets := dict_set dataset_id
                          {| annotations_path := annotations_path entry;
                             images_path := images_path entry;
                             loaded := true;
                             data := Some parsed |} (datasets self) |};
       opened := [annotations_path entry];
       outcome := inr (Some parsed) |}.
Proof.
  intros Hget Hl Hload. unfold load_dataset. rewrite Hget, Hl. simpl.
  rewrite Hload. reflexivity.
Qed.

Lemma load_dataset_unreadable (fs : file_system) (self : loader) (dataset_id : string)
    (entry : dataset_entry) (e : exn) :
  dict_get dataset_id (datasets self) = Some entry →
  loaded entry = false →
  fs_load fs (annotations_path entry) = inl e →
  load_dataset fs self dataset_id
  = {| self_after := self; opened := [annotations_path entry]; outcome := inl e |}.
Proof.
  intros Hget Hl Hload. unfold load_dataset. rewrite Hget, Hl. simpl.
  rewrite Hload. reflexivity.
Qed.

(** C8. The first load of a known, not yet loaded identifier whose file
    parses opens that file once, stores the parsed collection and marks the
    entry loaded; after any successful load, loading the same identifier
    again returns the same collection whatever the file system holds by
    then, opens no file and leaves the instance unchanged. *)
Theorem load_is_cached (fs : file_system) (self : loader) (dataset_id : string) :
  (∀ entry parsed,
     dict_get dataset_id (datasets self) = Some entry →
     loaded entry = false →
     fs_load fs (annotations_path entry) = inr parsed →
     opened (load_dataset fs self dataset_id) = [annotations_path entry] ∧
     outcome (load_dataset fs self dataset_id) = inr (Some parsed)) ∧
  (∀ d,
     outcome (load_dataset fs self dataset_id) = inr d →
     (∃ entry,
        dict_get dataset_id (datasets (self_after (load_dataset fs self dataset_id)))
          = Some entry ∧
        loaded entry = true ∧ data entry = d) ∧
     list_datasets (self_after (load_dataset fs self dataset_id)) = list_datasets self ∧
     ∀ fs',
       load_dataset fs' (self_after (load_dataset fs self dataset_id)) dataset_id
       = {| self_after := self_after (load_dataset fs self dataset_id);
            opened := [];
            outcome := inr d |}).
Proof.
  split.
  - intros entry parsed Hget Hl Hload.
    rewrite (load_dataset_fresh _ _ _ _ _ Hget Hl Hload). auto.
  - intros d.
    destruct (dict_get dataset_id (datasets self)) as [entry|] eqn:Hget.
    2: { unfold load_dataset. rewrite Hget. discriminate. }
    destruct (loaded entry) eqn:Hl.
    + rewrite (load_dataset_loaded _ _ _ _ Hget Hl). simpl.
      intros [= <-]. split; [eauto |]. split; [reflexivity |].
      intros fs'. by apply load_dataset_loaded.
    + destruct (fs_load fs (annotations_path entry)) as [e | parsed] eqn:Hload.
      { rewrite (load_dataset_unreadable _ _ _ _ _ Hget Hl Hload). discriminate. }
      rewrite (load_dataset_fresh _ _ _ _ _ Hget Hl Hload). simpl.
      intros [= <-]. split; [|split].
      * eexists. rewrite dict_get_set_eq. eauto.
      * unfold list_datasets. simpl. by apply dict_keys_set_present with entry.
      * intros fs'.
        erewrite load_dataset_loaded; [ | apply dict_get_set_eq | ]; reflexivity.
Qed.

Lemma load_is_cached_witness :
  outcome (load_dataset Examples.fs_scenario Examples.loader_d1 "d1")
    = inr (Some Examples.scenario) ∧
  load_dataset Examples.fs_broken
    (self_after (load_dataset Examples.fs_scenario Examples.loader_d1 "d1")) "d1"
  = {| self_after := self_after (load_dataset Examples.fs_scenario Examples.loader_d1 "d1");
       opened := [];
       outcome := inr (Some Examples.scenario) |}.
Proof.
  assert (outcome (load_dataset Examples.fs_scenario Examples.loader_d1 "d1")
          = inr (Some Examples.scenario)) as Hfirst by reflexivity.
  split; [exact Hfirst |].
  exact (proj2 (proj2 (proj2 (load_is_cached Examples.fs_scenario Examples.loader_d1 "d1")
                         _ Hfirst))
           Examples.fs_broken).
Defined.

Example unloaded_dataset_fails_on_broken_disk :
  outcome (load_dataset Examples.fs_broken Examples.loader_d1 "d1")
  = inl (OSError "BTT_Data/d1/coco.json").
Proof. reflexivity. Qed.

Example discovery_finds_d1 :
  init Examples.fs_scenario "BTT_Data" = inr Examples.loader_d1.
Proof. reflexivity. Qed.

(** ** Label frequency *)

Lemma count_labels_lookup (m : gmap string nat) (img_labels : list string) (label : string) :
  count_labels m img_labels !! label
  = if decide (length (filter (fun l => l = label) img_labels) = 0%nat)
    then m !! label
    else Some (default 0 (m !! label) + length (filter (fun l => l = label) img_labels))%nat.
Proof.
  revert m. induction img_labels as [|l ls IH]; intros m; [reflexivity |].
  unfold count_labels in *. cbn [foldl]. rewrite IH. clear IH.
  destruct (decide (l = label)) as [-> | Hne].
  - rewrite filter_cons_True by reflexivity. rewrite lookup_insert_eq.
    cbn [length default]. unfold id.
    repeat case_decide; try lia; f_equal; lia.
  - rewrite filter_cons_False by exact Hne. rewrite lookup_insert_ne by exact Hne.
    reflexivity.
Qed.

Lemma occurrences_cons (label : string) (img : image) (imgs : list image) :
  occurrences label (img :: imgs)
  = (length (filter (fun l => l = label) (default [] (labels img)))
     + occurrences label imgs)%nat.
Proof. reflexivity. Qed.

Lemma label_counts_from (m : gmap string nat) (imgs : list image) (label : string) :
  foldl (fun (m : gmap string nat) (img : image) =>
           count_labels m (default [] (labels img))) m imgs !! label
  = if decide (occurrences label imgs = 0%nat)
    then m !! label
    else Some (default 0 (m !! label) + occurrences label imgs)%nat.
Proof.
  revert m. induction imgs as [|img imgs IH]; intros m; [reflexivity |].
  cbn [foldl]. rewrite IH, count_labels_lookup, occurrences_cons. clear IH.
  generalize (length (filter (fun l => l = label) (default [] (labels img)))).
  generalize (occurrences label imgs). intros b a.
  repeat case_decide; try lia; cbn [default]; unfold id; try reflexivity; f_equal; lia.
Qed.

Lemma label_counts_lookup (imgs : list image) (label : string) :
  label_counts imgs !! label
  = if decide (occurrences label imgs = 0%nat) then None
    else Some (occurrences label imgs).
Proof.
  unfold label_counts. rewrite label_counts_from, lookup_empty. reflexivity.
Qed.

Lemma nodup_occurs_once (ls : list string) (label : string) :
  NoDup ls →
  length (filter (fun l => l = label) ls) = if decide (label ∈ ls) then 1%nat else 0%nat.
Proof.
  induction 1 as [|l ls Hnotin Hnd IH]; [reflexivity |].
  rewrite filter_cons. destruct (decide (l = label)) as [-> | Hne]; cbn [length].
  - rewrite IH. rewrite decide_False by exact Hnotin.
    rewrite decide_True by apply list_elem_of_here. reflexivity.
  - rewrite IH. destruct (decide (label ∈ ls)) as [Hin | Hnin].
    + rewrite decide_True by (by apply list_elem_of_further). reflexivity.
    + rewrite decide_False; [reflexivity |].
      rewrite elem_of_cons. intros [-> | Hin]; [by destruct Hne | by destruct Hnin].
Qed.

Lemma occurrences_without_repeats (imgs : list image) (label : string) :
  Forall (fun img => NoDup (default [] (labels img))) imgs →
  occurrences label imgs = images_containing label imgs.
Proof.
  unfold occurrences, images_containing.
  induction 1 as [|img imgs Hnd _ IH]; [reflexivity |].
  fold (occurrences label (img :: imgs)). fold (occurrences label imgs) in IH.
  rewrite occurrences_cons, IH, (nodup_occurs_once _ label Hnd), filter_cons.
  by destruct (decide (label ∈ default [] (labels img))).
Qed.

Lemma stats_after_load (fs : file_system) (self : loader) (dataset_id : string)
    (st : stats) :
  outcome (get_dataset_stats fs self dataset_id) = inr st ↔
  ∃ data, outcome (load_dataset fs self dataset_id) = inr (Some data) ∧
          st = stats_of data.
Proof.
  unfold get_dataset_stats, with_dataset. simpl.
  destruct (outcome (load_dataset fs self dataset_id)) as [e | [data|]]; simpl.
  - split; [discriminate | by intros (? & ? & _)].
  - unfold ret. split; [intros [= <-]; eauto | intros (? & [= <-] & ->); reflexivity].
  - split; [discriminate | by intros (? & ? & _)].
Qed.

(** C2, as stated, fails: an image whose labels array names a label twice
    adds two to that label's count, so the count exceeds the number of
    images that carry the label. *)
Lemma repeated_label_is_counted_twice :
  label_distribution
    (stats_of {| images := Some [Examples.image_two_cups];
                 annotations := None; categories := None |}) !! "cup"%string
  = Some 2%nat ∧
  images_containing "cup" [Examples.image_two_cups] = 1%nat.
Proof. split; vm_compute; reflexivity. Qed.

(** C2, amended. For every dataset and every label string, the label
    frequency reported by the statistics is the number of occurrences of the
    label in the labels arrays of all images together (and the label has no
    entry when there is none); it equals the number of images that contain
    the label whenever no image repeats a label in its labels array.
    Annotations play no part in it. *)
Theorem label_frequency_counts_occurrences (data : collection) (label : string) :
  label_distribution (stats_of data) !! label
  = (if decide (occurrences label (default [] (images data)) = 0%nat) then None
     else Some (occurrences label (default [] (images data)))) ∧
  (Forall (fun img => NoDup (default [] (labels img))) (default [] (images data)) →
   default 0%nat (label_distribution (stats_of data) !! label)
   = images_containing label (default [] (images data))) ∧
  (∀ anns, label_distribution (stats_of (with_annotations data anns))
           = label_distribution (stats_of data)).
Proof.
  split; [apply label_counts_lookup |]. split; [|reflexivity].
  intros Hnd. cbn [stats_of label_distribution]. rewrite label_counts_lookup.
  rewrite <- (occurrences_without_repeats _ label Hnd).
  case_decide as Hz; [rewrite Hz |]; reflexivity.
Qed.

Lemma label_frequency_counts_occurrences_witness :
  Forall (fun img => NoDup (default [] (labels img)))
         (default [] (images Examples.scenario)) ∧
  default 0%nat (label_distribution (stats_of Examples.scenario) !! "cup"%string)
  = images_containing "cup" (default [] (images Examples.scenario)).
Proof.
  assert (Forall (fun img => NoDup (default [] (labels img)))
                 (default [] (images Examples.scenario))) as Hnd.
  { repeat constructor. apply not_elem_of_nil. }
  split; [exact Hnd |].
  exact (proj1 (proj2 (label_frequency_counts_occurrences Examples.scenario "cup")) Hnd).
Defined.

(** ** Filtering by context *)

Lemma any_in_exists (required_values img_context_values : list string) :
  any_in required_values img_context_values = true ↔
  Exists (fun v => v ∈ required_values) img_context_values.
Proof.
  unfold any_in. rewrite existsb_exists, Exists_exists. split.
  - intros (val & Hin & Hdec). apply bool_decide_eq_true in Hdec.
    exists val. split; [exact Hdec | by apply list_elem_of_In].
  - intros (v & Hin & Hreq). exists v. split; [by apply list_elem_of_In |].
    by apply bool_decide_eq_true.
Qed.

Lemma context_match_matches (img : image) (context_filters : list (string * list string)) :
  context_match (default ∅ (contexts img)) context_filters = true ↔
  matches context_filters img.
Proof.
  unfold matches. induction context_filters as [|[context_type required_values] rest IH].
  - simpl. split; [constructor | reflexivity].
  - cbn [context_match]. rewrite Forall_cons, <- IH. cbn [fst snd].
    fold (values_under img context_type). rewrite <- any_in_exists.
    destruct (any_in required_values (values_under img context_type)); simpl.
    + tauto.
    + split; [discriminate | intros [H _]; discriminate H].
Qed.

Lemma context_loop_filter (imgs : list image) (context_filters : list (string * list string))
    (filtered_images : list image) :
  context_loop imgs context_filters filtered_images
  = filtered_images ++ filter (matches context_filters) imgs.
Proof.
  revert filtered_images. induction imgs as [|img imgs IH]; intros acc.
  - cbn. by rewrite app_nil_r.
  - cbn [context_loop].
    destruct (context_match (default ∅ (contexts img)) context_filters) eqn:E.
    + apply context_match_matches in E. rewrite IH, filter_cons_True by exact E.
      by rewrite <- app_assoc.
    + rewrite IH, filter_cons_False; [reflexivity |].
      rewrite <- context_match_matches, E. discriminate.
Qed.

Lemma matches_spelled_out (context_filters : list (string * list string)) (img : image) :
  matches context_filters img ↔
  ∀ context_type acceptable,
    (context_type, acceptable) ∈ context_filters →
    ∃ v, v ∈ values_under img context_type ∧ v ∈ acceptable.
Proof.
  unfold matches. rewrite Forall_forall. split.
  - intros H k vs Hin. apply (H (k, vs)) in Hin. by apply Exists_exists in Hin.
  - intros H [k vs] Hin. apply Exists_exists. by apply H.
Qed.

(** C6. [filter_images_by_context] returns, in their order, exactly the
    images of the loaded dataset that match the filters, where an image
    matches when for every key of the filters at least one of its values
    under that context category is one of the acceptable values; an image
    that lacks a category that the filters name has no value under it and is
    not returned. *)
Theorem filter_by_context_is_and_of_ors (context_filters : list (string * list string)) :
  (∀ data,
     images_by_context context_filters data
     = filter (matches context_filters) (default [] (images data))) ∧
  (∀ fs self dataset_id,
     outcome (filter_images_by_context fs self dataset_id context_filters)
     = bind (outcome (load_dataset fs self dataset_id))
         (fun d => match d with
                   | Some data =>
                     ret (filter (matches context_filters) (default [] (images data)))
                   | None => raise AttributeError
                   end)) ∧
  (∀ img,
     matches context_filters img ↔
     ∀ context_type acceptable,
       (context_type, acceptable) ∈ context_filters →
       ∃ v, v ∈ values_under img context_type ∧ v ∈ acceptable) ∧
  (∀ data img context_type acceptable,
     (context_type, acceptable) ∈ context_filters →
     default ∅ (contexts img) !! context_type = None →
     values_under img context_type = [] ∧
     img ∉ images_by_context context_filters data).
Proof.
  assert (∀ data, images_by_context context_filters data
                  = filter (matches context_filters) (default [] (images data))) as Hfilter.
  { intros data. unfold images_by_context. by rewrite context_loop_filter. }
  split; [exact Hfilter |]. split; [|split].
  - intros fs self dataset_id. unfold filter_images_by_context, with_dataset. simpl.
    destruct (outcome (load_dataset fs self dataset_id)) as [e | [data|]];
      simpl; [reflexivity | | reflexivity].
    by rewrite Hfilter.
  - apply matches_spelled_out.
  - intros data img context_type acceptable Hin Hnone.
    assert (values_under img context_type = []) as Hempty.
    { unfold values_under. by rewrite Hnone. }
    split; [exact Hempty |].
    rewrite Hfilter, list_elem_of_filter. intros [Hm _].
    destruct (proj1 (matches_spelled_out _ _) Hm _ _ Hin) as (v & Hv & _).
    rewrite Hempty in Hv. by apply not_elem_of_nil in Hv.
Qed.

Lemma filter_by_context_is_and_of_ors_witness :
  (("scene"%string, ["kitchen"%string]) ∈ [("scene"%string, ["kitchen"%string])]) ∧
  default ∅ (contexts Examples.image_plain) !! "scene"%string = None ∧
  images_by_context [("scene"%string, ["kitchen"%string])]
    {| images := Some [Examples.image_kitchen; Examples.image_street; Examples.image_plain];
       annotations := None; categories := None |}
  = [Examples.image_kitchen] ∧
  Examples.image_plain ∉
    images_by_context [("scene"%string, ["kitchen"%string])]
      {| images := Some [Examples.image_kitchen; Examples.image_street; Examples.image_plain];
         annotations := None; categories := None |}.
Proof.
  assert (Hin : ("scene"%string, ["kitchen"%string]) ∈ [("scene"%string, ["kitchen"%string])])
    by apply list_elem_of_here.
  split; [exact Hin |]. split; [reflexivity |]. split; [vm_compute; reflexivity |].
  destruct (filter_by_context_is_and_of_ors [("scene"%string, ["kitchen"%string])])
    as (_ & _ & _ & Hlack).
  exact (proj2 (Hlack
           {| images := Some [Examples.image_kitchen; Examples.image_street;
                              Examples.image_plain];
              annotations := None; categories := None |}
           Examples.image_plain "scene"%string ["kitchen"%string] Hin eq_refl)).
Defined.

(* ===================================================================== *)
(** * Further properties of the validator *)
(* ===================================================================== *)

(** ** The image index *)

Lemma foldl_insert_lookup {A V : Type} `{Countable K} (key : A → K) (val : A → V)
    (l : list A) (m : gmap K V) (k : K) :
  foldl (fun (m : gmap K V) (x : A) => <[key x := val x]> m) m l !! k
  = match last (filter (fun x => key x = k) l) with
    | Some x => Some (val x)
    | None => m !! k
    end.
Proof.
  revert m. induction l as [|a l IH]; intros m; [reflexivity |].
  cbn [foldl]. rewrite IH. clear IH.
  destruct (decide (key a = k)) as [Hk | Hk].
  - rewrite filter_cons_True by exact Hk. rewrite last_cons.
    destruct (last (filter (fun x => key x = k) l)); [reflexivity |].
    rewrite Hk. apply lookup_insert_eq.
  - rewrite filter_cons_False by exact Hk.
    destruct (last (filter (fun x => key x = k) l)); [reflexivity |].
    by apply lookup_insert_ne.
Qed.

(** X1. The index maps an id to the last image of the list that has it:
    later duplicates replace earlier ones, every indexed image is an image
    of the list under its own id, and an id is absent exactly when no image
    has it. *)
Theorem image_index_last_wins (imgs_list : list image) (k : Z) :
  build_img_dict imgs_list !! k
  = last (filter (fun img => img_id img = k) imgs_list) ∧
  (∀ img, build_img_dict imgs_list !! k = Some img → img_id img = k ∧ img ∈ imgs_list) ∧
  (build_img_dict imgs_list !! k = None ↔ ∀ img, img ∈ imgs_list → img_id img ≠ k).
Proof.
  assert (build_img_dict imgs_list !! k
          = last (filter (fun img => img_id img = k) imgs_list)) as Hlast.
  { unfold build_img_dict.
    rewrite (foldl_insert_lookup img_id (fun img => img)), lookup_empty.
    by destruct (last _). }
  split; [exact Hlast |]. rewrite Hlast. split.
  - intros img Himg. apply last_Some_elem_of, list_elem_of_filter in Himg. exact Himg.
  - rewrite last_None. split.
    + intros Hnil img Hin Hid. by apply (filter_nil_not_elem_of _ _ img Hnil).
    + intros Hno. destruct (filter _ imgs_list) as [|img l] eqn:E; [reflexivity |].
      assert (img ∈ filter (fun img => img_id img = k) imgs_list) as Hin
        by (rewrite E; apply list_elem_of_here).
      apply list_elem_of_filter in Hin as [Hid Hin]. by destruct (Hno img Hin).
Qed.

Lemma image_index_last_wins_witness :
  build_img_dict [Examples.image_a; Examples.image_a_again] !! 1
    = Some Examples.image_a_again ∧
  img_id Examples.image_a_again = 1 ∧
  Examples.image_a_again ∈ [Examples.image_a; Examples.image_a_again].
Proof.
  assert (build_img_dict [Examples.image_a; Examples.image_a_again] !! 1
          = Some Examples.image_a_again) as Hlookup by (vm_compute; reflexivity).
  split; [exact Hlookup |].
  exact (proj1 (proj2 (image_index_last_wins
                         [Examples.image_a; Examples.image_a_again] 1)) _ Hlookup).
Defined.

(** ** Validating the cleaned output again *)

Lemma filter_bool_idem {A} (f : A → bool) (l : list A) :
  List.filter f (List.filter f l) = List.filter f l.
Proof.
  induction l as [|a l IH]; [reflexivity |]. simpl.
  destruct (f a) eqn:E; simpl; [rewrite E |]; by rewrite ?IH.
Qed.

Lemma accepted_completes (path_exists : string → bool) (img_dict : gmap Z image)
    (l : list annotation) :
  Forall (completes path_exists img_dict) (List.filter (accepted path_exists img_dict) l).
Proof.
  apply Forall_forall. intros ann Hin.
  apply list_elem_of_In, filter_In in Hin as [_ Hacc].
  unfold accepted in Hacc. intros e He. rewrite He in Hacc. discriminate Hacc.
Qed.

Lemma accepted_not_tagged (path_exists : string → bool) (img_dict : gmap Z image)
    (l : list annotation) :
  omap (tagged path_exists img_dict) (List.filter (accepted path_exists img_dict) l) = [].
Proof.
  induction l as [|a l IH]; [reflexivity |]. simpl.
  destruct (accepted path_exists img_dict a) eqn:E; [|exact IH].
  assert (tagged path_exists img_dict a = None) as Ht.
  { unfold accepted in E. unfold tagged.
    destruct (check path_exists img_dict a); try discriminate E; reflexivity. }
  cbn [omap list_omap]. rewrite Ht. exact IH.
Qed.

(** X2. Running the validator on its own cleaned output, against the same
    file system, changes nothing: every annotation is accepted again, the
    cleaned collection comes back as it is and the dropped list is empty. *)
Theorem revalidation_drops_nothing (path_exists : string → bool)
    (subset_limit : option Z) (data : collection) (out : outputs) :
  validate path_exists subset_limit data = inr out →
  validate path_exists None (clean_data out)
  = inr {| clean_data := clean_data out; dropped := [] |}.
Proof.
  intros Hrun. apply validate_returns in Hrun as [_ ->]. cbn [clean_data].
  apply validate_returns.
  change (index_of (with_annotations data ?l)) with (index_of data).
  change (processed None (with_annotations data ?l)) with l.
  split; [apply accepted_completes |].
  rewrite filter_bool_idem, accepted_not_tagged. reflexivity.
Qed.

Lemma revalidation_drops_nothing_witness :
  validate Examples.only_a_png None Examples.scenario
    = inr {| clean_data := with_annotations Examples.scenario [Examples.ann10];
             dropped := [set_drop_reason Examples.ann11 "zero/negative width or height";
                         set_drop_reason Examples.ann12 "missing image"] |} ∧
  validate Examples.only_a_png None (with_annotations Examples.scenario [Examples.ann10])
    = inr {| clean_data := with_annotations Examples.scenario [Examples.ann10];
             dropped := [] |}.
Proof.
  assert (validate Examples.only_a_png None Examples.scenario
    = inr {| clean_data := with_annotations Examples.scenario [Examples.ann10];
             dropped := [set_drop_reason Examples.ann11 "zero/negative width or height";
                         set_drop_reason Examples.ann12 "missing image"] |}) as Hrun
    by (vm_compute; reflexivity).
  split; [exact Hrun |].
  exact (revalidation_drops_nothing Examples.only_a_png None Examples.scenario _ Hrun).
Defined.

(** ** Validating in chunks *)

Lemma validation_loop_app (path_exists : string → bool) (img_dict : gmap Z image)
    (a b c d : list annotation) :
  validation_loop path_exists img_dict (a ++ b) c d
  = match validation_loop path_exists img_dict a c d with
    | inl e => inl e
    | inr (c', d') => validation_loop path_exists img_dict b c' d'
    end.
Proof.
  revert c d. induction a as [|ann a IH]; intros c d; [reflexivity |].
  cbn [app Validator.validation_loop].
  destruct (check path_exists img_dict ann); [apply IH | apply IH | reflexivity].
Qed.

Lemma validation_loop_acc (path_exists : string → bool) (img_dict : gmap Z image)
    (l c d : list annotation) :
  validation_loop path_exists img_dict l c d
  = match validation_loop path_exists img_dict l [] [] with
    | inl e => inl e
    | inr (c', d') => inr (c ++ c', d ++ d')
    end.
Proof.
  destruct (validation_loop path_exists img_dict l [] []) as [e | [c' d']] eqn:E.
  - apply validation_loop_raises. by apply validation_loop_raises in E.
  - apply validation_loop_returns in E as (Hall & -> & ->).
    apply validation_loop_returns. auto.
Qed.

(** X3. Validating a list of annotations gives the same result as
    validating a first part and the rest separately against the same images
    and file system: an exception of the first part is the exception of the
    whole, otherwise an exception of the rest is, and otherwise the cleaned
    and the dropped lists are the concatenations of those of the parts. *)
Theorem validation_of_concatenation (path_exists : string → bool)
    (data : collection) (a b : list annotation) :
  validate path_exists None (with_annotations data (a ++ b))
  = bind (validate path_exists None (with_annotations data a)) (fun out_a =>
    bind (validate path_exists None (with_annotations data b)) (fun out_b =>
    ret {| clean_data :=
             with_annotations data
               (default [] (annotations (clean_data out_a))
                ++ default [] (annotations (clean_data out_b)));
           dropped := dropped out_a ++ dropped out_b |})).
Proof.
  unfold Validator.validate, with_annotations. cbn [images annotations categories default].
  change (limited None ?l) with l. unfold id.
  rewrite validation_loop_app.
  destruct (validation_loop path_exists _ a [] []) as [e | [ca da]]; [reflexivity |].
  cbn [bind ret clean_data dropped annotations default].
  rewrite (validation_loop_acc _ _ b ca da).
  destruct (validation_loop path_exists _ b [] []) as [e | [cb db]]; reflexivity.
Qed.

(** ** Bounding boxes that are not lists *)

Lemma chars_length (s : string) : length (chars s) = String.length s.
Proof. induction s as [|c s IH]; simpl; by rewrite ?IH. Qed.

Lemma chars_are_text (s : string) : Forall (fun v => py_le0 v = inl TypeError) (chars s).
Proof. induction s as [|c s IH]; simpl; constructor; [reflexivity | exact IH]. Qed.

Lemma keys_are_text (d : list (string * json)) :
  Forall (fun v => py_le0 v = inl TypeError) (map (fun kv => JStr (fst kv)) d).
Proof. induction d as [|kv d IH]; simpl; constructor; [reflexivity | exact IH]. Qed.

Lemma check_bbox_text_items (b : json) (items : list json) :
  py_iter b = Some items →
  Forall (fun v => py_le0 v = inl TypeError) items →
  check_bbox b = if Nat.eqb (length items) 4 then Raise TypeError else Drop MissingBbox.
Proof.
  intros Hit Hall.
  destruct (Nat.eqb (length items) 4) eqn:E.
  - apply Nat.eqb_eq in E.
    destruct items as [|x [|y [|w [|h [|z items]]]]]; try discriminate E.
    rewrite (check_bbox_four _ _ _ _ _ Hit).
    apply geometry_width_type_error.
    by inversion_clear Hall as [|? ? _ Hall']; inversion_clear Hall' as [|? ? _ Hall''];
       inversion_clear Hall'' as [|? ? Hw _].
  - apply Nat.eqb_neq in E. apply check_bbox_wrong_length with (length items); [|exact E].
    apply py_len_iter. eauto.
Qed.

(** X4. For an annotation whose image resolves, a bbox that is not a list
    is never accepted: a zero number, [false], an empty string or object is
    dropped as "missing bbox", as is a string or object whose length is not
    4; a non-zero number or [true] raises [TypeError] at [len], and a string
    or object of length 4 raises [TypeError] at the first comparison. *)
Theorem bbox_that_is_not_a_list (path_exists : string → bool) (img_dict : gmap Z image)
    (ann : annotation) :
  image_resolves path_exists img_dict ann →
  (∀ z, bbox ann = Some (JInt z) →
     check path_exists img_dict ann
     = if z =? 0 then Drop MissingBbox else Raise TypeError) ∧
  (∀ b, bbox ann = Some (JBool b) →
     check path_exists img_dict ann
     = if b then Raise TypeError else Drop MissingBbox) ∧
  (∀ f, bbox ann = Some (JFloat f) →
     check path_exists img_dict ann
     = if SFeqb f (S754_zero false) then Drop MissingBbox else Raise TypeError) ∧
  (∀ s, bbox ann = Some (JStr s) →
     check path_exists img_dict ann
     = if Nat.eqb (String.length s) 4 then Raise TypeError else Drop MissingBbox) ∧
  (∀ d, bbox ann = Some (JDict d) →
     check path_exists img_dict ann
     = if Nat.eqb (length d) 4 then Raise TypeError else Drop MissingBbox).
Proof.
  intros Hres. rewrite (check_image_ok _ _ _ Hres).
  split; [|split; [|split; [|split]]].
  - intros z ->. unfold check_bbox. simpl. by destruct (z =? 0).
  - intros b ->. unfold check_bbox. simpl. by destruct b.
  - intros f ->. unfold check_bbox. simpl. by destruct (SFeqb f (S754_zero false)).
  - intros s ->. change (default JNull (Some ?v)) with v.
    rewrite (check_bbox_text_items (JStr s) (chars s) eq_refl (chars_are_text s)).
    by rewrite chars_length.
  - intros d ->. change (default JNull (Some ?v)) with v.
    rewrite (check_bbox_text_items (JDict d) _ eq_refl (keys_are_text d)).
    by rewrite length_map.
Qed.

Lemma bbox_that_is_not_a_list_witness :
  image_resolves Examples.only_a_png (index_of Examples.scenario)
    (Examples.ann_of 41 1 (JInt 7)) ∧
  check Examples.only_a_png (index_of Examples.scenario) (Examples.ann_of 41 1 (JInt 7))
  = Raise TypeError.
Proof.
  assert (image_resolves Examples.only_a_png (index_of Examples.scenario)
            (Examples.ann_of 41 1 (JInt 7))) as Hres.
  { exists Examples.image_a, "a.png"%string. repeat split; vm_compute; reflexivity. }
  split; [exact Hres |].
  exact (proj1 (bbox_that_is_not_a_list Examples.only_a_png (index_of Examples.scenario)
                  (Examples.ann_of 41 1 (JInt 7)) Hres) 7 eq_refl).
Defined.

(** ** Exactly which annotations are accepted *)

(** X5. The loop body accepts an annotation exactly when its image
    resolves, its bbox has four items, and none of the four comparisons
    [w <= 0], [h <= 0], [x < 0], [y < 0] is true or raises. Since every
    comparison with NaN is false, a bbox of four NaN values is accepted. *)
Theorem accepted_exactly_when (path_exists : string → bool) (img_dict : gmap Z image)
    (ann : annotation) :
  (check path_exists img_dict ann = Accept ↔
   image_resolves path_exists img_dict ann ∧
   ∃ x y w h, py_iter (default JNull (bbox ann)) = Some [x; y; w; h] ∧
              py_le0 w = inr false ∧ py_le0 h = inr false ∧
              py_lt0 x = inr false ∧ py_lt0 y = inr false) ∧
  (image_resolves path_exists img_dict ann →
   bbox ann = Some (JList [JFloat S754_nan; JFloat S754_nan;
                           JFloat S754_nan; JFloat S754_nan]) →
   check path_exists img_dict ann = Accept).
Proof.
  assert (∀ x y w h,
            image_resolves path_exists img_dict ann →
            py_iter (default JNull (bbox ann)) = Some [x; y; w; h] →
            py_le0 w = inr false → py_le0 h = inr false →
            py_lt0 x = inr false → py_lt0 y = inr false →
            check path_exists img_dict ann = Accept) as Hback.
  { intros x y w h Hres Hit Hw Hh Hx Hy.
    rewrite (check_image_ok _ _ _ Hres), (check_bbox_four _ _ _ _ _ Hit).
    unfold check_geometry, py_or, bind, ret. by rewrite Hw, Hh, Hx, Hy. }
  split; [split |].
  - intros Hc. pose proof (check_outcome path_exists img_dict ann) as Ho. rewrite Hc in Ho.
    inversion Ho as [ | | | | x y w h Hr Hit Hg]; subst.
    split; [exact Hr |]. exists x, y, w, h. split; [exact Hit |].
    by apply geometry_accept_inv.
  - intros (Hres & x & y & w & h & Hit & Hw & Hh & Hx & Hy). by apply Hback with x y w h.
  - intros Hres Hb.
    apply Hback with (JFloat S754_nan) (JFloat S754_nan) (JFloat S754_nan) (JFloat S754_nan);
      try reflexivity; [exact Hres | by rewrite Hb].
Qed.

Lemma accepted_exactly_when_witness :
  image_resolves Examples.only_a_png (index_of Examples.scenario)
    (Examples.ann_of 42 1 (JList [JFloat S754_nan; JFloat S754_nan;
                                  JFloat S754_nan; JFloat S754_nan])) ∧
  check Examples.only_a_png (index_of Examples.scenario)
    (Examples.ann_of 42 1 (JList [JFloat S754_nan; JFloat S754_nan;
                                  JFloat S754_nan; JFloat S754_nan])) = Accept.
Proof.
  assert (image_resolves Examples.only_a_png (index_of Examples.scenario)
            (Examples.ann_of 42 1 (JList [JFloat S754_nan; JFloat S754_nan;
                                          JFloat S754_nan; JFloat S754_nan]))) as Hres.
  { exists Examples.image_a, "a.png"%string. repeat split; vm_compute; reflexivity. }
  split; [exact Hres |].
  exact (proj2 (accepted_exactly_when Examples.only_a_png (index_of Examples.scenario) _)
           Hres eq_refl).
Defined.

(** ** Caps outside the list *)

(** X6. A cap at least as large as the input processes everything; a
    negative cap [N] skips the last [-N] annotations instead of keeping the
    first ones, and processes nothing once [-N] reaches the length of the
    input. *)
Theorem cap_out_of_range (n : Z) (data : collection) :
  (Z.of_nat (length (default [] (annotations data))) <= n →
   processed (Some n) data = default [] (annotations data)) ∧
  (n < 0 →
   processed (Some n) data
   = take (length (default [] (annotations data)) - Z.to_nat (- n))
          (default [] (annotations data))) ∧
  (n < 0 → n <= - Z.of_nat (length (default [] (annotations data))) →
   processed (Some n) data = []).
Proof.
  unfold processed. split; [|split].
  - intros Hn. destruct (decide (n = 0)) as [-> | Hne]; [reflexivity |].
    rewrite limited_positive by lia. apply take_ge. lia.
  - apply limited_negative.
  - intros Hneg Hn. rewrite limited_negative by exact Hneg.
    replace (length (default [] (annotations data)) - Z.to_nat (- n))%nat with 0%nat by lia.
    reflexivity.
Qed.

Lemma cap_out_of_range_witness :
  (-1 < 0) ∧
  processed (Some (-1)) Examples.scenario = [Examples.ann10; Examples.ann11].
Proof.
  split; [lia |].
  exact (proj1 (proj2 (cap_out_of_range (-1) Examples.scenario)) ltac:(lia)).
Defined.

(* ===================================================================== *)
(** * Further properties of the dataset loader *)
(* ===================================================================== *)

(** ** Discovery *)

Lemma dict_keys_set {V} (k : string) (v : V) (d : list (string * V)) :
  dict_keys (dict_set k v d)
  = if decide (k ∈ dict_keys d) then dict_keys d else dict_keys d ++ [k].
Proof.
  unfold dict_keys. induction d as [|[k' v'] d IH]; cbn [dict_set map fst].
  - case_decide as H; [by apply elem_of_nil in H | reflexivity].
  - destruct (String.eqb_spec k k') as [-> | Hne]; cbn [map fst].
    + by rewrite decide_True by apply list_elem_of_here.
    + rewrite IH. destruct (decide (k ∈ map fst d)) as [Hin | Hnin].
      * by rewrite decide_True by (by apply list_elem_of_further).
      * rewrite decide_False; [reflexivity |].
        rewrite elem_of_cons. intros [-> | Hin]; [by destruct Hne | by destruct Hnin].
Qed.

Lemma dict_set_fresh {V} (k : string) (v : V) (d : list (string * V)) :
  k ∉ dict_keys d → dict_set k v d = d ++ [(k, v)].
Proof.
  induction d as [|[k' v'] d IH]; simpl; [reflexivity |].
  rewrite not_elem_of_cons. intros [Hne Hnin].
  apply String.eqb_neq in Hne. rewrite Hne. by rewrite IH.
Qed.

Lemma discover_one_spec (fs : file_system) (base : string)
    (ds : list (string * dataset_entry)) (name : string) :
  discover_one fs base ds name
  = if is_dataset_dir fs base name then dict_set name (fresh_entry base name) ds else ds.
Proof.
  unfold discover_one, is_dataset_dir, fresh_entry.
  destruct (fs_is_dir fs (path_join base name) && negb (starts_with_dot name));
    [|reflexivity].
  cbn [andb].
  by destruct (fs_exists fs (path_join (path_join base name) "coco.json")
               && fs_exists fs (path_join (path_join base name) "images")).
Qed.

Lemma discover_keys_elem (fs : file_system) (base : string) (names : list string)
    (ds : list (string * dataset_entry)) (k : string) :
  k ∈ dict_keys (foldl (discover_one fs base) ds names) ↔
  k ∈ dict_keys ds ∨ (k ∈ names ∧ is_dataset_dir fs base k = true).
Proof.
  revert ds. induction names as [|name names IH]; intros ds; cbn [foldl].
  - split; [auto | intros [H | [H _]]; [exact H | by apply elem_of_nil in H]].
  - rewrite IH, discover_one_spec, elem_of_cons.
    destruct (is_dataset_dir fs base name) eqn:E.
    + rewrite dict_keys_set. case_decide as Hin.
      * split; [tauto |]. intros [H | [[-> | H] Hd]]; auto.
      * rewrite elem_of_app, list_elem_of_singleton. split.
        -- intros [[H | ->] | [H Hd]]; auto.
        -- intros [H | [[-> | H] Hd]]; auto.
    + split; [tauto |]. intros [H | [[-> | H] Hd]]; auto. congruence.
Qed.

Lemma discover_keys_nodup (fs : file_system) (base : string) (names : list string)
    (ds : list (string * dataset_entry)) :
  NoDup names → (∀ name, name ∈ names → name ∉ dict_keys ds) →
  dict_keys (foldl (discover_one fs base) ds names)
  = dict_keys ds ++ List.filter (is_dataset_dir fs base) names.
Proof.
  intros Hnd. revert ds. induction Hnd as [|name names Hnotin Hnd IH]; intros ds Hfresh;
    cbn [foldl List.filter]; [by rewrite app_nil_r |].
  rewrite discover_one_spec.
  assert (name ∉ dict_keys ds) as Hname by (apply Hfresh, list_elem_of_here).
  destruct (is_dataset_dir fs base name).
  - rewrite IH.
    + rewrite dict_keys_set, decide_False by exact Hname. by rewrite <- app_assoc.
    + intros n Hn. rewrite dict_keys_set, decide_False by exact Hname.
      rewrite elem_of_app, list_elem_of_singleton.
      intros [Hin | ->]; [|done].
      by apply (Hfresh n); [apply list_elem_of_further |].
  - apply IH. intros n Hn. by apply Hfresh, list_elem_of_further.
Qed.

Lemma discover_entries (fs : file_system) (base : string) (names : list string)
    (ds : list (string * dataset_entry)) :
  (∀ k e, dict_get k ds = Some e → e = fresh_entry base k) →
  ∀ k e, dict_get k (foldl (discover_one fs base) ds names) = Some e →
         e = fresh_entry base k.
Proof.
  revert ds. induction names as [|name names IH]; intros ds Hds; cbn [foldl]; [exact Hds |].
  apply IH. intros k e. rewrite discover_one_spec.
  destruct (is_dataset_dir fs base name); [|apply Hds].
  destruct (decide (name = k)) as [-> | Hne].
  - rewrite dict_get_set_eq. by intros [= <-].
  - rewrite dict_get_set_ne by exact Hne. apply Hds.
Qed.

Lemma init_directory (fs : file_system) (base : string) :
  fs_exists fs base = true → fs_is_dir fs base = true →
  init fs base
  = inr {| base_path := base;
           datasets := foldl (discover_one fs base) [] (fs_iterdir fs base) |}.
Proof.
  intros Hex Hdir. unfold init, load_available_datasets. cbn [base_path datasets].
  by rewrite Hex, Hdir.
Qed.

Lemma init_returns (fs : file_system) (base : string) (self : loader) :
  init fs base = inr self →
  fs_exists fs base = true ∧ fs_is_dir fs base = true ∧
  self = {| base_path := base;
            datasets := foldl (discover_one fs base) [] (fs_iterdir fs base) |}.
Proof.
  unfold init, load_available_datasets. cbn [base_path datasets].
  destruct (fs_exists fs base); [|discriminate].
  destruct (fs_is_dir fs base); [|discriminate].
  cbn [negb]. by intros [= <-].
Qed.

(** X7. Creating a loader fails with [FileNotFoundError] when the base
    path does not exist, and with [NotADirectoryError] when it exists but
    is not a directory; it succeeds exactly when the base path is an
    existing directory. Then its datasets are the directory entries that
    are directories, do not start with a dot and contain both [coco.json]
    and [images], in listing order; every other entry is skipped silently;
    and each dataset starts unloaded, without data, with its two paths
    under [base/name]. *)
Theorem discovery_keeps_complete_directories (fs : file_system) (base : string) :
  (fs_exists fs base = false →
   init fs base
   = inl (FileNotFoundError [Lit "Dataset directory not found: "; Interp base])) ∧
  (fs_exists fs base = true → fs_is_dir fs base = false →
   init fs base = inl (NotADirectoryError base)) ∧
  ((∃ self, init fs base = inr self) ↔
   fs_exists fs base = true ∧ fs_is_dir fs base = true) ∧
  (fs_exists fs base = true → fs_is_dir fs base = true →
   ∃ self,
     init fs base = inr self ∧
     base_path self = base ∧
     (∀ id, id ∈ list_datasets self ↔
            id ∈ fs_iterdir fs base ∧ is_dataset_dir fs base id = true) ∧
     (∀ id entry, dict_get id (datasets self) = Some entry →
                  entry = fresh_entry base id) ∧
     (NoDup (fs_iterdir fs base) →
      list_datasets self = List.filter (is_dataset_dir fs base) (fs_iterdir fs base))).
Proof.
  unfold init, load_available_datasets. cbn [base_path datasets].
  split; [|split; [|split]].
  - intros ->. reflexivity.
  - intros -> ->. reflexivity.
  - destruct (fs_exists fs base), (fs_is_dir fs base); cbn [negb]; split;
      first [ by intros [self [=]] | by intros [[=] [=]] | by eauto ].
  - intros -> ->. cbn [negb]. eexists. split; [reflexivity |]. cbn [base_path datasets].
    split; [reflexivity |]. unfold list_datasets. cbn [datasets]. split; [|split].
    + intros id. rewrite discover_keys_elem. cbn. split; [|auto].
      intros [H | H]; [by apply elem_of_nil in H | exact H].
    + apply discover_entries. intros k e. discriminate.
    + intros Hnd. rewrite discover_keys_nodup; [reflexivity | exact Hnd |].
      intros name _. apply not_elem_of_nil.
Qed.

Lemma discovery_keeps_complete_directories_witness :
  fs_exists Examples.fs_mixed "BTT_Data" = true ∧
  fs_is_dir Examples.fs_mixed "BTT_Data" = true ∧
  ∃ self, init Examples.fs_mixed "BTT_Data" = inr self ∧
          list_datasets self = ["d1"%string].
Proof.
  split; [reflexivity |]. split; [reflexivity |].
  destruct (proj2 (proj2 (proj2 (discovery_keeps_complete_directories
                                   Examples.fs_mixed "BTT_Data")))
              eq_refl eq_refl) as (self & Hinit & _ & _ & _ & Hlist).
  exists self. split; [exact Hinit |].
  rewrite Hlist; [reflexivity |].
  apply (bool_decide_unpack _). vm_compute. exact I.
Defined.

Example base_path_is_a_file :
  init Examples.fs_plain_file "BTT_Data" = inl (NotADirectoryError "BTT_Data") ∧
  load_all_datasets Examples.fs_plain_file "BTT_Data"
  = ([], inl (NotADirectoryError "BTT_Data")).
Proof. split; reflexivity. Qed.

(** ** What a load changes *)

Lemma load_dataset_unknown (fs : file_system) (self : loader) (dataset_id : string) :
  dict_get dataset_id (datasets self) = None →
  load_dataset fs self dataset_id
  = {| self_after := self;
       opened := [];
       outcome := inl (ValueError (not_found_message dataset_id (list_datasets self))) |}.
Proof. intros Hget. unfold load_dataset. by rewrite Hget. Qed.

(** The four ways a call of [load_dataset] can go. *)
Lemma load_dataset_cases (fs : file_system) (self : loader) (dataset_id : string) :
  (dict_get dataset_id (datasets self) = None ∧
   load_dataset fs self dataset_id
   = {| self_after := self; opened := [];
        outcome := inl (ValueError (not_found_message dataset_id (list_datasets self))) |}) ∨
  (∃ entry, dict_get dataset_id (datasets self) = Some entry ∧ loaded entry = true ∧
     load_dataset fs self dataset_id
     = {| self_after := self; opened := []; outcome := inr (data entry) |}) ∨
  (∃ entry e, dict_get dataset_id (datasets self) = Some entry ∧ loaded entry = false ∧
     fs_load fs (annotations_path entry) = inl e ∧
     load_dataset fs self dataset_id
     = {| self_after := self; opened := [annotations_path entry]; outcome := inl e |}) ∨
  (∃ entry parsed, dict_get dataset_id (datasets self) = Some entry ∧ loaded entry = false ∧
     fs_load fs (annotations_path entry) = inr parsed ∧
     load_dataset fs self dataset_id
     = {| self_after :=
            {| base_path := base_path self;
               datasets := dict_set dataset_id
                             {| annotations_path := annotations_path entry;
                                images_path := images_path entry;
                                loaded := true;
                                data := Some parsed |} (datasets self) |};
          opened := [annotations_path entry];
          outcome := inr (Some parsed) |}).
Proof.
  destruct (dict_get dataset_id (datasets self)) as [entry|] eqn:Hget.
  2: { left. split; [reflexivity | by apply load_dataset_unknown]. }
  right. destruct (loaded entry) eqn:Hl.
  { left. exists entry. eauto using load_dataset_loaded. }
  right. destruct (fs_load fs (annotations_path entry)) as [e | parsed] eqn:Hload.
  - left. exists entry, e. eauto using load_dataset_unreadable.
  - right. exists entry, parsed. eauto using load_dataset_fresh.
Qed.

Lemma load_frame (fs : file_system) (self : loader) (dataset_id : string) :
  (∀ other, other ≠ dataset_id →
     dict_get other (datasets (self_after (load_dataset fs self dataset_id)))
     = dict_get other (datasets self)) ∧
  (∀ entry, dict_get dataset_id (datasets self) = Some entry →
     ∃ entry', dict_get dataset_id (datasets (self_after (load_dataset fs self dataset_id)))
               = Some entry' ∧
               annotations_path entry' = annotations_path entry ∧
               images_path entry' = images_path entry) ∧
  (dict_get dataset_id (datasets self) = None →
   dict_get dataset_id (datasets (self_after (load_dataset fs self dataset_id))) = None).
Proof.
  destruct (load_dataset_cases fs self dataset_id)
    as [[Hget ->] | [(entry & Hget & Hl & ->) | [(entry & e & Hget & Hl & Hload & ->)
       | (entry & parsed & Hget & Hl & Hload & ->)]]]; cbn [self_after].
  - split; [auto | split; [|auto]]. intros entry. rewrite Hget. discriminate.
  - split; [auto | split; [|auto]]. intros entry'. rewrite Hget. intros [= <-]. eauto.
  - split; [auto | split; [|auto]]. intros entry'. rewrite Hget. intros [= <-]. eauto.
  - split; [|split].
    + intros other Hne. cbn [datasets]. by apply dict_get_set_ne.
    + intros entry'. rewrite Hget. intros [= <-]. cbn [datasets].
      rewrite dict_get_set_eq. eauto.
    + rewrite Hget. discriminate.
Qed.

Lemma discovered_entries_fresh (fs : file_system) (base : string) (self : loader) :
  init fs base = inr self →
  ∀ id entry, dict_get id (datasets self) = Some entry → entry = fresh_entry base id.
Proof.
  intros (_ & _ & ->)%init_returns.
  cbn [datasets]. apply discover_entries. intros k e. discriminate.
Qed.

(** X8. A load touches at most the entry it is asked for: the base path,
    the list of identifiers and its order, every other entry, and the
    requested entry's own two paths stay as they were, whether the load
    succeeds or fails; and it opens no file or exactly the annotation file
    of the requested entry. *)
Theorem load_touches_one_entry (fs : file_system) (self : loader) (dataset_id : string) :
  base_path (self_after (load_dataset fs self dataset_id)) = base_path self ∧
  list_datasets (self_after (load_dataset fs self dataset_id)) = list_datasets self ∧
  (∀ other, other ≠ dataset_id →
     dict_get other (datasets (self_after (load_dataset fs self dataset_id)))
     = dict_get other (datasets self)) ∧
  (∀ entry, dict_get dataset_id (datasets self) = Some entry →
     ∃ entry', dict_get dataset_id (datasets (self_after (load_dataset fs self dataset_id)))
               = Some entry' ∧
               annotations_path entry' = annotations_path entry ∧
               images_path entry' = images_path entry) ∧
  (opened (load_dataset fs self dataset_id) = [] ∨
   ∃ entry, dict_get dataset_id (datasets self) = Some entry ∧ loaded entry = false ∧
            opened (load_dataset fs self dataset_id) = [annotations_path entry]).
Proof.
  destruct (load_dataset_cases fs self dataset_id)
    as [[Hget ->] | [(entry & Hget & Hl & ->) | [(entry & e & Hget & Hl & Hload & ->)
       | (entry & parsed & Hget & Hl & Hload & ->)]]]; cbn [self_after opened].
  - split; [reflexivity |]. split; [reflexivity |]. split; [auto |]. split; [|auto].
    intros entry. rewrite Hget. discriminate.
  - split; [reflexivity |]. split; [reflexivity |]. split; [auto |]. split; [|auto].
    intros entry'. rewrite Hget. intros [= <-]. eauto.
  - split; [reflexivity |]. split; [reflexivity |]. split; [auto |]. split; [|eauto].
    intros entry'. rewrite Hget. intros [= <-]. eauto.
  - split; [reflexivity |]. split; [|split; [|split]].
    + unfold list_datasets. cbn [datasets]. by apply dict_keys_set_present with entry.
    + intros other Hne. cbn [datasets]. by apply dict_get_set_ne.
    + intros entry'. rewrite Hget. intros [= <-]. cbn [datasets].
      rewrite dict_get_set_eq. eauto.
    + right. eauto.
Qed.

Lemma load_touches_one_entry_witness :
  ("d1"%string ≠ "d2"%string) ∧
  dict_get "d2"
    (datasets (self_after (load_dataset Examples.fs_scenario Examples.loader_d1 "d1")))
  = dict_get "d2" (datasets Examples.loader_d1).
Proof.
  split; [discriminate |].
  exact (proj1 (proj2 (proj2
           (load_touches_one_entry Examples.fs_scenario Examples.loader_d1 "d1")))
           "d2"%string ltac:(discriminate)).
Defined.

(** X9. A load that raises leaves the loader exactly as it was: nothing is
    marked loaded and no data is stored, so the next load of the same
    identifier starts from scratch and reads the file again. *)
Theorem failed_load_changes_nothing (fs : file_system) (self : loader)
    (dataset_id : string) (e : exn) :
  outcome (load_dataset fs self dataset_id) = inl e →
  self_after (load_dataset fs self dataset_id) = self ∧
  (∀ entry, dict_get dataset_id (datasets self) = Some entry →
     loaded entry = false ∧
     opened (load_dataset fs self dataset_id) = [annotations_path entry] ∧
     ∀ fs' parsed, fs_load fs' (annotations_path entry) = inr parsed →
       opened (load_dataset fs' (self_after (load_dataset fs self dataset_id)) dataset_id)
         = [annotations_path entry] ∧
       outcome (load_dataset fs' (self_after (load_dataset fs self dataset_id)) dataset_id)
         = inr (Some parsed)).
Proof.
  destruct (load_dataset_cases fs self dataset_id)
    as [[Hget ->] | [(entry & Hget & Hl & ->) | [(entry & e' & Hget & Hl & Hload & ->)
       | (entry & parsed & Hget & Hl & Hload & ->)]]]; cbn [self_after opened outcome];
    try discriminate.
  - intros _. split; [reflexivity |]. intros entry. rewrite Hget. discriminate.
  - intros _. split; [reflexivity |]. intros entry'. rewrite Hget. intros [= <-].
    split; [exact Hl |]. split; [reflexivity |].
    intros fs' parsed Hparsed.
    by rewrite (load_dataset_fresh fs' _ _ _ _ Hget Hl Hparsed).
Qed.

Lemma failed_load_changes_nothing_witness :
  outcome (load_dataset Examples.fs_broken Examples.loader_d1 "d1")
    = inl (OSError "BTT_Data/d1/coco.json") ∧
  self_after (load_dataset Examples.fs_broken Examples.loader_d1 "d1") = Examples.loader_d1.
Proof.
  split; [reflexivity |].
  exact (proj1 (failed_load_changes_nothing Examples.fs_broken Examples.loader_d1 "d1"
                  (OSError "BTT_Data/d1/coco.json") eq_refl)).
Defined.

(** ** Image paths *)

(** X10. For a loader created on [base], the image path of a discovered
    dataset is [base/id/images/filename], whether or not the file exists
    and whatever has been loaded since; for any other identifier
    [get_image_path] raises a [ValueError] whose message, unlike that of
    [load_dataset], does not list the known identifiers. *)
Theorem image_path_of_discovered (fs : file_system) (base : string) (self : loader)
    (dataset_id filename : string) :
  init fs base = inr self →
  (dataset_id ∈ list_datasets self →
   get_image_path self dataset_id filename
   = inr (path_join (path_join (path_join base dataset_id) "images") filename)) ∧
  (dataset_id ∉ list_datasets self →
   get_image_path self dataset_id filename
   = inl (ValueError [Lit "Dataset "; Interp dataset_id; Lit " not found"])) ∧
  (∀ fs' loaded_id,
     get_image_path (self_after (load_dataset fs' self loaded_id)) dataset_id filename
     = get_image_path self dataset_id filename).
Proof.
  intros Hinit. split; [|split].
  - intros Hin. unfold get_image_path.
    destruct (dict_get dataset_id (datasets self)) as [entry|] eqn:Hget.
    + by rewrite (discovered_entries_fresh _ _ _ Hinit _ _ Hget).
    + apply dict_get_none in Hget. by destruct Hget.
  - intros Hnot. unfold get_image_path. apply dict_get_none in Hnot. by rewrite Hnot.
  - intros fs' loaded_id. unfold get_image_path.
    destruct (load_frame fs' self loaded_id) as (Hother & Hsame & Hnone).
    destruct (decide (dataset_id = loaded_id)) as [-> | Hne].
    + destruct (dict_get loaded_id (datasets self)) as [entry|] eqn:Hget.
      * destruct (Hsame entry eq_refl) as (entry' & -> & _ & ->). reflexivity.
      * by rewrite Hnone.
    + by rewrite Hother.
Qed.

Lemma image_path_of_discovered_witness :
  init Examples.fs_scenario "BTT_Data" = inr Examples.loader_d1 ∧
  ("d1"%string ∈ list_datasets Examples.loader_d1) ∧
  get_image_path Examples.loader_d1 "d1" "a.png" = inr "BTT_Data/d1/images/a.png"%string.
Proof.
  assert ("d1"%string ∈ list_datasets Examples.loader_d1) as Hin by apply list_elem_of_here.
  split; [reflexivity |]. split; [exact Hin |].
  exact (proj1 (image_path_of_discovered Examples.fs_scenario "BTT_Data"
                  Examples.loader_d1 "d1" "a.png" eq_refl) Hin).
Defined.

(** ** The other statistics *)

Lemma foldl_insert_dom {A V : Type} `{Countable K} (key : A → K) (val : A → V)
    (l : list A) (m : gmap K V) :
  dom (foldl (fun (m : gmap K V) (x : A) => <[key x := val x]> m) m l)
  = dom m ∪ list_to_set (map key l).
Proof.
  revert m. induction l as [|a l IH]; intros m; cbn [foldl map list_to_set].
  - by rewrite union_empty_r_L.
  - rewrite IH, dom_insert_L.
    rewrite (comm_L (∪) {[key a]} (dom m)). by rewrite (assoc_L (∪)).
Qed.

Lemma size_list_to_set_le `{Countable K} (l : list K) :
  (size (list_to_set l : gset K) ≤ length l)%nat.
Proof.
  induction l as [|a l IH]; cbn [list_to_set length]; [by rewrite size_empty |].
  rewrite size_union_alt, size_singleton.
  assert (size (list_to_set l ∖ {[a]} : gset K) ≤ size (list_to_set l : gset K))%nat
    by (apply subseteq_size, subseteq_difference_l; reflexivity).
  lia.
Qed.

(** X11. The categories mapping of the statistics is keyed by name: a name
    maps to the id of the last category that carries it, so
    [num_categories] counts distinct names; it never exceeds the number of
    category records and equals it when no two categories share a name. *)
Theorem categories_are_counted_by_name (data : collection) :
  (∀ name,
     categories_by_name (stats_of data) !! name
     = cat_id <$> last (filter (fun cat => cat_name cat = name)
                               (default [] (categories data)))) ∧
  (num_categories (stats_of data) ≤ length (default [] (categories data)))%nat ∧
  (NoDup (map cat_name (default [] (categories data))) →
   num_categories (stats_of data) = length (default [] (categories data))) ∧
  num_images (stats_of data) = length (default [] (images data)).
Proof.
  cbn [stats_of categories_by_name num_categories num_images].
  split; [|split; [|split; [|reflexivity]]].
  - intros name. rewrite (foldl_insert_lookup cat_name cat_id), lookup_empty.
    by destruct (last _).
  - rewrite <- size_dom, (foldl_insert_dom cat_name cat_id), dom_empty_L, union_empty_l_L.
    etrans; [apply size_list_to_set_le |]. by rewrite length_map.
  - intros Hnd.
    rewrite <- size_dom, (foldl_insert_dom cat_name cat_id), dom_empty_L, union_empty_l_L.
    rewrite size_list_to_set by exact Hnd. by rewrite length_map.
Qed.

Lemma categories_are_counted_by_name_witness :
  num_categories (stats_of Examples.repeated_categories) = 2%nat ∧
  (num_categories (stats_of Examples.repeated_categories)
   ≤ length (default [] (categories Examples.repeated_categories)))%nat ∧
  categories_by_name (stats_of Examples.repeated_categories) !! "cup"%string = Some 3.
Proof.
  split; [vm_compute; reflexivity |].
  split; [exact (proj1 (proj2 (categories_are_counted_by_name Examples.repeated_categories)))
         | vm_compute; reflexivity].
Defined.

Lemma foldl_union_elem {A : Type} `{Countable K} (f : A → gset K) (l : list A)
    (s : gset K) (x : K) :
  x ∈ foldl (fun (s : gset K) (a : A) => s ∪ f a) s l ↔ x ∈ s ∨ ∃ a, a ∈ l ∧ x ∈ f a.
Proof.
  revert s. induction l as [|a l IH]; intros s; cbn [foldl].
  - split; [auto |]. intros [Hs | (a & Ha & _)]; [exact Hs | by apply elem_of_nil in Ha].
  - rewrite IH, elem_of_union. split.
    + intros [[Hs | Hs] | (b & Hb & Hx)]; [auto | right | right].
      * exists a. split; [apply list_elem_of_here | exact Hs].
      * exists b. split; [by apply list_elem_of_further | exact Hx].
    + intros [Hs | (b & Hb & Hx)]; [auto |].
      apply elem_of_cons in Hb as [-> | Hb]; [auto | right; eauto].
Qed.

Lemma context_values_elem (key : string) (imgs : list image) (v : string) :
  v ∈ context_values key imgs ↔ ∃ img, img ∈ imgs ∧ v ∈ values_under img key.
Proof.
  unfold context_values.
  rewrite (foldl_union_elem
             (fun img => list_to_set (default [] (default ∅ (contexts img) !! key)))).
  split.
  - intros [H | (img & Hin & Hv)]; [by apply elem_of_empty in H |].
    exists img. split; [exact Hin |]. by apply elem_of_list_to_set in Hv.
  - intros (img & Hin & Hv). right. exists img. split; [exact Hin |].
    by apply elem_of_list_to_set.
Qed.

(** X12. The context sets of the statistics collect exactly what the
    images carry: a name is a context type when some image has it as a key
    of its contexts, and a value is a scene type (lighting condition, blur
    effect, occlusion type) when some image lists it under "scene"
    ("lighting conditions", "blur effect", "occlusion"). Images without
    contexts or without the key contribute nothing. *)
Theorem context_sets_collect_image_values (data : collection) :
  (∀ name, name ∈ context_types (stats_of data) ↔
     ∃ img, img ∈ default [] (images data) ∧
            is_Some (default ∅ (contexts img) !! name)) ∧
  (∀ v, v ∈ scene_types (stats_of data) ↔
     ∃ img, img ∈ default [] (images data) ∧ v ∈ values_under img "scene") ∧
  (∀ v, v ∈ lighting_conditions (stats_of data) ↔
     ∃ img, img ∈ default [] (images data) ∧ v ∈ values_under img "lighting conditions") ∧
  (∀ v, v ∈ blur_effects (stats_of data) ↔
     ∃ img, img ∈ default [] (images data) ∧ v ∈ values_under img "blur effect") ∧
  (∀ v, v ∈ occlusion_types (stats_of data) ↔
     ∃ img, img ∈ default [] (images data) ∧ v ∈ values_under img "occlusion").
Proof.
  cbn [stats_of context_types scene_types lighting_conditions blur_effects occlusion_types].
  split; [|repeat split; apply context_values_elem].
  intros name. rewrite (foldl_union_elem (fun img => dom (default ∅ (contexts img)))).
  split.
  - intros [H | (img & Hin & Hv)]; [by apply elem_of_empty in H |].
    exists img. split; [exact Hin |]. by apply elem_of_dom in Hv.
  - intros (img & Hin & Hv). right. exists img. split; [exact Hin |]. by apply elem_of_dom.
Qed.

(** ** Filtering by labels *)

Lemma has_labels_carries (wanted : list string) (img : image) :
  has_labels wanted img = true ↔ carries wanted img.
Proof.
  unfold has_labels, carries. rewrite bool_decide_eq_true, elem_of_subseteq, Forall_forall.
  split.
  - intros H l Hl. apply (elem_of_list_to_set (C := gset string)), H.
    by apply elem_of_list_to_set.
  - intros H l Hl. apply elem_of_list_to_set, H. by apply elem_of_list_to_set in Hl.
Qed.

Lemma labels_loop_filter (imgs : list image) (wanted : list string)
    (matching_images : list image) :
  labels_loop imgs wanted matching_images
  = matching_images ++ filter (carries wanted) imgs.
Proof.
  revert matching_images. induction imgs as [|img imgs IH]; intros acc.
  - cbn. by rewrite app_nil_r.
  - cbn [labels_loop]. destruct (has_labels wanted img) eqn:E.
    + apply has_labels_carries in E. rewrite IH, filter_cons_True by exact E.
      by rewrite <- app_assoc.
    + rewrite IH, filter_cons_False; [reflexivity |].
      rewrite <- has_labels_carries, E. discriminate.
Qed.

Lemma images_with_labels_filter (wanted : list string) (data : collection) :
  images_with_labels wanted data = filter (carries wanted) (default [] (images data)).
Proof. unfold images_with_labels. by rewrite labels_loop_filter. Qed.

(** X13. [get_images_with_labels] returns, in their order, the images
    whose labels include every requested label. An empty request returns
    every image; repeating or reordering requested labels changes nothing;
    and asking for two lists at once is the same as filtering the result
    for the first list by the second. *)
Theorem images_with_labels_is_superset_filter (wanted : list string) (data : collection) :
  images_with_labels wanted data
    = filter (fun img => wanted ⊆ default [] (labels img)) (default [] (images data)) ∧
  images_with_labels [] data = default [] (images data) ∧
  (∀ wanted', (∀ l, l ∈ wanted ↔ l ∈ wanted') →
     images_with_labels wanted' data = images_with_labels wanted data) ∧
  (∀ more,
     images_with_labels (wanted ++ more) data
     = images_with_labels more (with_images data (images_with_labels wanted data))).
Proof.
  rewrite !images_with_labels_filter. split; [|split; [|split]].
  - apply list_filter_iff. intros img. unfold carries. by rewrite Forall_forall.
  - induction (default [] (images data)) as [|img imgs IH]; [reflexivity |].
    rewrite filter_cons_True by constructor. by rewrite IH.
  - intros wanted' Hsame. rewrite images_with_labels_filter.
    apply list_filter_iff. intros img. unfold carries. rewrite !Forall_forall.
    split; intros H l Hl; apply H, Hsame, Hl.
  - intros more. rewrite !images_with_labels_filter.
    change (default [] (images (with_images data ?l))) with l.
    rewrite list_filter_filter. apply list_filter_iff. intros img.
    unfold carries. rewrite Forall_app. tauto.
Qed.

Lemma images_with_labels_is_superset_filter_witness :
  (∀ l : string, l ∈ ["cup"; "table"]%string ↔ l ∈ ["table"; "cup"; "cup"]%string) ∧
  images_with_labels ["table"; "cup"; "cup"]%string Examples.labelled
  = [Examples.image_cup_table].
Proof.
  assert (∀ l : string, l ∈ ["cup"; "table"]%string ↔ l ∈ ["table"; "cup"; "cup"]%string)
    as Hsame.
  { intros l. rewrite !elem_of_cons. pose proof (elem_of_nil l). tauto. }
  split; [exact Hsame |].
  rewrite (proj1 (proj2 (proj2 (images_with_labels_is_superset_filter
                                  ["cup"; "table"]%string Examples.labelled)))
             _ Hsame).
  vm_compute. reflexivity.
Defined.

(** ** Edge cases of filtering by context *)

(** X14. With no filters [filter_images_by_context] returns every image;
    a filter whose list of acceptable values is empty excludes every image;
    the order of the filters does not matter; and filtering by two sets of
    filters at once is filtering by one and then the other. *)
Theorem context_filters_compose (context_filters : list (string * list string))
    (data : collection) :
  images_by_context [] data = default [] (images data) ∧
  (∀ context_type, (context_type, []) ∈ context_filters →
     images_by_context context_filters data = []) ∧
  (∀ reordered, reordered ≡ₚ context_filters →
     images_by_context reordered data = images_by_context context_filters data) ∧
  (∀ more,
     images_by_context (context_filters ++ more) data
     = images_by_context more (with_images data (images_by_context context_filters data))).
Proof.
  unfold images_by_context. rewrite !context_loop_filter. cbn [app].
  split; [|split; [|split]].
  - induction (default [] (images data)) as [|img imgs IH]; [reflexivity |].
    rewrite filter_cons_True by constructor. by rewrite IH.
  - intros context_type Hin.
    induction (default [] (images data)) as [|img imgs IH]; [reflexivity |].
    rewrite filter_cons_False; [exact IH |].
    intros Hm. destruct (proj1 (matches_spelled_out _ _) Hm _ _ Hin) as (v & _ & Hv).
    by apply elem_of_nil in Hv.
  - intros reordered Hperm. rewrite context_loop_filter. cbn [app].
    apply list_filter_iff. intros img. unfold matches. by rewrite Hperm.
  - intros more. rewrite !context_loop_filter. cbn [app].
    change (default [] (images (with_images data ?l))) with l.
    rewrite list_filter_filter. apply list_filter_iff. intros img.
    unfold matches. rewrite Forall_app. tauto.
Qed.

Lemma context_filters_compose_witness :
  (("scene"%string, []) ∈ [("occlusion"%string, ["none"%string]); ("scene"%string, [])]) ∧
  images_by_context [("occlusion"%string, ["none"%string]); ("scene"%string, [])]
    {| images := Some [Examples.image_kitchen; Examples.image_street];
       annotations := None; categories := None |}
  = [].
Proof.
  assert (Hin : ("scene"%string, []) ∈
                [("occlusion"%string, ["none"%string]); ("scene"%string, [])])
    by (apply list_elem_of_further, list_elem_of_here).
  split; [exact Hin |].
  exact (proj1 (proj2 (context_filters_compose _ _)) "scene"%string Hin).
Defined.

(** ** Queries after a load *)

Lemma load_again (fs fs' : file_system) (self : loader) (dataset_id : string)
    (d : option collection) :
  outcome (load_dataset fs self dataset_id) = inr d →
  load_dataset fs' (self_after (load_dataset fs self dataset_id)) dataset_id
  = {| self_after := self_after (load_dataset fs self dataset_id);
       opened := [];
       outcome := inr d |}.
Proof.
  destruct (load_dataset_cases fs self dataset_id)
    as [[Hget ->] | [(entry & Hget & Hl & ->) | [(entry & e' & Hget & Hl & Hload & ->)
       | (entry & parsed & Hget & Hl & Hload & ->)]]]; cbn [self_after outcome];
    try discriminate.
  - intros [= <-]. by apply load_dataset_loaded.
  - intros [= <-].
    erewrite load_dataset_loaded; [ | apply dict_get_set_eq | ]; reflexivity.
Qed.

(** X15. Once a query on a dataset has succeeded, every later query on it
    (statistics, filter by context, filter by labels) is answered from the
    stored collection: it opens no file, gives the same answer whatever the
    file system holds by then, and leaves the loader unchanged. *)
Theorem queries_share_one_load (fs : file_system) (self : loader) (dataset_id : string)
    (st : stats) :
  outcome (get_dataset_stats fs self dataset_id) = inr st →
  ∃ data,
    st = stats_of data ∧
    ∀ fs',
      get_dataset_stats fs' (self_after (get_dataset_stats fs self dataset_id)) dataset_id
      = {| self_after := self_after (get_dataset_stats fs self dataset_id);
           opened := [];
           outcome := inr st |} ∧
      (∀ context_filters,
         filter_images_by_context fs' (self_after (get_dataset_stats fs self dataset_id))
           dataset_id context_filters
         = {| self_after := self_after (get_dataset_stats fs self dataset_id);
              opened := [];
              outcome := inr (images_by_context context_filters data) |}) ∧
      (∀ wanted,
         get_images_with_labels fs' (self_after (get_dataset_stats fs self dataset_id))
           dataset_id wanted
         = {| self_after := self_after (get_dataset_stats fs self dataset_id);
              opened := [];
              outcome := inr (images_with_labels wanted data) |}).
Proof.
  intros Hst. apply stats_after_load in Hst as (data & Hload & ->).
  exists data. split; [reflexivity |]. intros fs'.
  change (self_after (get_dataset_stats fs self dataset_id))
    with (self_after (load_dataset fs self dataset_id)).
  unfold get_dataset_stats, filter_images_by_context, get_images_with_labels, with_dataset.
  rewrite (load_again fs fs' _ _ _ Hload). cbn [self_after opened outcome bind].
  auto.
Qed.

Lemma queries_share_one_load_witness :
  outcome (get_dataset_stats Examples.fs_scenario Examples.loader_d1 "d1")
    = inr (stats_of Examples.scenario) ∧
  ∃ data,
    opened (filter_images_by_context Examples.fs_broken
              (self_after (get_dataset_stats Examples.fs_scenario Examples.loader_d1 "d1"))
              "d1" []) = [] ∧
    outcome (filter_images_by_context Examples.fs_broken
               (self_after (get_dataset_stats Examples.fs_scenario Examples.loader_d1 "d1"))
               "d1" []) = inr (images_by_context [] data).
Proof.
  assert (outcome (get_dataset_stats Examples.fs_scenario Examples.loader_d1 "d1")
          = inr (stats_of Examples.scenario)) as Hst by reflexivity.
  split; [exact Hst |].
  destruct (queries_share_one_load Examples.fs_scenario Examples.loader_d1 "d1" _ Hst)
    as (data & _ & Hlater).
  exists data. destruct (Hlater Examples.fs_broken) as (_ & Hfilter & _).
  rewrite (Hfilter []). split; reflexivity.
Defined.

(** ** Loading every dataset *)

Lemma load_all_loop_prefix (fs : file_system) (base : string) (before rest : list string) :
  ∀ (self : loader) (acc : list (string * option collection)) (out : list Console.line),
  NoDup (before ++ rest) →
  (∀ id, id ∈ before ++ rest → dict_get id (datasets self) = Some (fresh_entry base id)) →
  (∀ id, id ∈ before ++ rest → id ∉ dict_keys acc) →
  Forall (has_images fs base) before →
  ∃ self',
    (∀ id, id ∈ rest → dict_get id (datasets self') = Some (fresh_entry base id)) ∧
    (∀ id, id ∈ rest →
           id ∉ dict_keys (acc ++ map (fun id => (id, document_of fs base id)) before)) ∧
    load_all_loop fs self (before ++ rest) acc out
    = load_all_loop fs self' rest
        (acc ++ map (fun id => (id, document_of fs base id)) before)
        (out ++ map (loaded_line fs base) before).
Proof.
  induction before as [|id0 before IH]; intros self acc out Hnd Hfresh Hacc Hok.
  - exists self. cbn [app map]. rewrite !app_nil_r. auto.
  - cbn [app] in *. apply NoDup_cons in Hnd as [Hid0 Hnd].
    apply Forall_cons in Hok as [(parsed & imgs & Hload & Himgs) Hok].
    assert (dict_get id0 (datasets self) = Some (fresh_entry base id0)) as Hget
      by apply Hfresh, list_elem_of_here.
    assert (document_of fs base id0 = Some parsed) as Hdoc
      by (unfold document_of; by rewrite Hload).
    cbn [load_all_loop].
    rewrite (load_dataset_fresh fs self id0 _ parsed Hget eq_refl Hload).
    cbn [outcome self_after]. rewrite Himgs.
    rewrite (dict_set_fresh id0 (Some parsed) acc) by apply Hacc, list_elem_of_here.
    match goal with
    | |- context [load_all_loop fs ?s (before ++ rest) ?a ?o] =>
      destruct (IH s a o Hnd) as (self' & Hfresh' & Hacc' & Heq)
    end; [| | exact Hok |].
    + intros id Hin. cbn [datasets]. rewrite dict_get_set_ne.
      * by apply Hfresh, list_elem_of_further.
      * intros ->. by destruct Hid0.
    + intros id Hin. unfold dict_keys. rewrite map_app, elem_of_app. cbn [map fst].
      rewrite list_elem_of_singleton. intros [Hk | ->].
      * by apply (Hacc id); [apply list_elem_of_further |].
      * by destruct Hid0.
    + exists self'. split; [exact Hfresh' |].
      assert (loaded_line fs base id0
              = [Console.Text "Loaded dataset "; Console.Str id0; Console.Text " with ";
                 Console.Count (length imgs); Console.Text " images"]) as Hline.
      { unfold loaded_line. rewrite Hdoc. simpl. by rewrite Himgs. }
      cbn [map]. rewrite Hline, Hdoc.
      rewrite <- app_assoc in Hacc'. rewrite <- !app_assoc in Heq.
      cbn [app] in Hacc', Heq.
      split; [exact Hacc' | exact Heq].
Qed.

(** X16. [load_all_datasets] prints nothing and raises
    [FileNotFoundError] when the base path does not exist, and
    [NotADirectoryError] when it exists but is not a directory. When the
    base path is an existing directory that lists no name twice:
    if every discovered dataset's file parses to an object with an
    [images] key, [load_all_datasets] returns every discovered identifier
    with its parsed collection, in discovery order, after printing one line
    per dataset; and the first dataset whose file cannot be read, or parses
    but has no [images] key, ends the call with the read error, resp. with
    [KeyError], after the lines of the datasets before it. *)
Theorem load_all_datasets_all_or_error (fs : file_system) (base : string) :
  (fs_exists fs base = false →
   load_all_datasets fs base
   = ([], inl (FileNotFoundError [Lit "Dataset directory not found: "; Interp base]))) ∧
  (fs_exists fs base = true → fs_is_dir fs base = false →
   load_all_datasets fs base = ([], inl (NotADirectoryError base))) ∧
  (fs_exists fs base = true → fs_is_dir fs base = true →
   NoDup (fs_iterdir fs base) →
   (Forall (has_images fs base) (dataset_ids fs base) →
    load_all_datasets fs base
    = (map (loaded_line fs base) (dataset_ids fs base),
       inr (map (fun id => (id, document_of fs base id)) (dataset_ids fs base)))) ∧
   (∀ before id after,
      dataset_ids fs base = before ++ id :: after →
      Forall (has_images fs base) before →
      (∀ parsed, fs_load fs (path_join (path_join base id) "coco.json") = inr parsed →
                 images parsed = None →
                 load_all_datasets fs base
                 = (map (loaded_line fs base) before, inl (KeyError "images"))) ∧
      (∀ e, fs_load fs (path_join (path_join base id) "coco.json") = inl e →
            load_all_datasets fs base = (map (loaded_line fs base) before, inl e)))).
Proof.
  split; [|split].
  { intros Hex. unfold load_all_datasets, init, load_available_datasets.
    cbn [base_path]. by rewrite Hex. }
  { intros Hex Hdir. unfold load_all_datasets, init, load_available_datasets.
    cbn [base_path]. by rewrite Hex, Hdir. }
  intros Hex Hdir Hnd.
  assert (∃ self, init fs base = inr self ∧
                  list_datasets self = dataset_ids fs base ∧
                  ∀ id, id ∈ dataset_ids fs base →
                        dict_get id (datasets self) = Some (fresh_entry base id))
    as (self & Hinit & Hids & Hfresh).
  { rewrite (init_directory fs base Hex Hdir).
    eexists. split; [reflexivity |].
    assert (list_datasets
              {| base_path := base;
                 datasets := foldl (discover_one fs base) [] (fs_iterdir fs base) |}
            = dataset_ids fs base) as Hkeys.
    { unfold list_datasets. cbn [datasets].
      rewrite discover_keys_nodup; [reflexivity | exact Hnd |].
      intros name _. apply not_elem_of_nil. }
    split; [exact Hkeys |]. intros id Hin. rewrite <- Hkeys in Hin.
    unfold list_datasets in Hin. cbn [datasets] in *.
    destruct (dict_get id (foldl (discover_one fs base) [] (fs_iterdir fs base)))
      as [entry|] eqn:Hget.
    - f_equal. apply (discover_entries fs base (fs_iterdir fs base) []); [|exact Hget].
      intros k e. discriminate.
    - apply dict_get_none in Hget. by destruct Hget. }
  assert (NoDup (dataset_ids fs base)) as Hnd_ids.
  { unfold dataset_ids. apply NoDup_ListNoDup, List.NoDup_filter. by apply NoDup_ListNoDup. }
  unfold load_all_datasets. rewrite Hinit, Hids. split.
  - intros Hok.
    destruct (load_all_loop_prefix fs base (dataset_ids fs base) [] self [] [])
      as (self' & _ & _ & Heq); rewrite ?app_nil_r; auto.
    { intros id _. apply not_elem_of_nil. }
    rewrite app_nil_r in Heq. rewrite Heq. reflexivity.
  - intros before id after Hsplit Hok.
    destruct (load_all_loop_prefix fs base before (id :: after) self [] [])
      as (self' & Hfresh' & _ & Heq); rewrite <- ?Hsplit; auto.
    { intros id' _. apply not_elem_of_nil. }
    rewrite Hsplit, Heq. cbn [app load_all_loop].
    assert (dict_get id (datasets self') = Some (fresh_entry base id)) as Hget
      by apply Hfresh', list_elem_of_here.
    split.
    + intros parsed Hload Himgs.
      rewrite (load_dataset_fresh fs self' id _ parsed Hget eq_refl Hload).
      cbn [outcome]. by rewrite Himgs.
    + intros e Hload.
      by rewrite (load_dataset_unreadable fs self' id _ e Hget eq_refl Hload).
Qed.

Lemma load_all_datasets_all_or_error_witness :
  fs_exists Examples.fs_mixed "BTT_Data" = true ∧
  fs_is_dir Examples.fs_mixed "BTT_Data" = true ∧
  NoDup (fs_iterdir Examples.fs_mixed "BTT_Data") ∧
  load_all_datasets Examples.fs_mixed "BTT_Data" = ([], inl (KeyError "images")).
Proof.
  assert (NoDup (fs_iterdir Examples.fs_mixed "BTT_Data")) as Hnd.
  { apply (bool_decide_unpack _). vm_compute. exact I. }
  split; [reflexivity |]. split; [reflexivity |]. split; [exact Hnd |].
  destruct (proj2 (proj2 (load_all_datasets_all_or_error Examples.fs_mixed "BTT_Data"))
              eq_refl eq_refl Hnd)
    as [_ Hfail].
  exact (proj1 (Hfail [] "d1"%string [] eq_refl (List.Forall_nil _))
           Examples.no_images eq_refl eq_refl).
Defined.

(* ===================================================================== *)
(** * Properties of the setup script *)
(* ===================================================================== *)

Section SetupFacts.

Variable project_root : string.

Local Abbreviation create_loop := (Setup.create_loop project_root).
Local Abbreviation create_directory_structure :=
  (Setup.create_directory_structure project_root).
Local Abbreviation check_dataset_structure := (Setup.check_dataset_structure project_root).
Local Abbreviation run_steps := (Setup.run_steps).
Local Abbreviation steps := (Setup.steps project_root).
Local Abbreviation main := (Setup.main project_root).

(** ** The step loop of main *)

Lemma run_steps_keeps_failed (todo : list (string * (Setup.world → Setup.step)))
    (w : Setup.world) (failed_steps : list string) (out : list Console.line) (name : string) :
  name ∈ failed_steps → name ∈ (run_steps todo w failed_steps out).2.
Proof.
  revert w failed_steps out. induction todo as [|[step_name step_func] todo IH];
    intros w failed_steps out Hin; cbn [Setup.run_steps]; [exact Hin |].
  destruct (Setup.returned (step_func w)) as [e | v].
  - apply IH. apply elem_of_app. by left.
  - destruct (Setup.falsy v); apply IH; [apply elem_of_app; by left | exact Hin].
Qed.

Lemma run_steps_records_failure (todo : list (string * (Setup.world → Setup.step)))
    (w : Setup.world) (failed_steps : list string) (out : list Console.line)
    (name : string) (func : Setup.world → Setup.step) :
  (name, func) ∈ todo →
  (∀ w', Setup.returned (func w') ≠ inr (Some true)) →
  name ∈ (run_steps todo w failed_steps out).2.
Proof.
  intros Hin Hnever. revert w failed_steps out.
  induction todo as [|[step_name step_func] todo IH]; intros w failed_steps out;
    [by apply elem_of_nil in Hin |].
  cbn [Setup.run_steps]. apply elem_of_cons in Hin as [[= <- <-] | Hin].
  - pose proof (Hnever w) as Hw.
    destruct (Setup.returned (func w)) as [e | [[|]|]]; cbn [Setup.falsy];
      try (apply run_steps_keeps_failed, elem_of_app; right; apply list_elem_of_here).
    by destruct Hw.
  - destruct (Setup.returned (step_func w)) as [e | v]; [by apply IH |].
    destruct (Setup.falsy v); by apply IH.
Qed.

Lemma create_never_returns_true (w : Setup.world) :
  Setup.returned (create_directory_structure w) ≠ inr (Some true).
Proof.
  unfold Setup.create_directory_structure.
  by destruct (create_loop w Setup.required_dirs _) as [[w' out] [e|]].
Qed.

(** X17. [main] never reports success. [create_directory_structure] has no
    [return] statement, so it returns [None], which [main] counts as a
    failed step: on every machine, whatever the other steps do, "Directory
    structure" is among the failed steps, [main] returns [False] and the
    script exits with status 1. *)
Theorem main_never_succeeds
    (pip_install : string → Setup.world → Setup.world * option Console.failure)
    (w : Setup.world) :
  (∀ w', Setup.returned (create_directory_structure w') ≠ inr (Some true)) ∧
  (∀ out, "Directory structure"%string ∈ (run_steps (steps pip_install) w [] out).2) ∧
  (main pip_install w).2 = false ∧
  Setup.exit_status project_root pip_install w = 1.
Proof.
  assert (∀ out, "Directory structure"%string
                 ∈ (run_steps (steps pip_install) w [] out).2) as Hfailed.
  { intros out.
    apply run_steps_records_failure with (Setup.create_directory_structure project_root);
      [|apply create_never_returns_true].
    unfold Setup.steps. do 2 apply list_elem_of_further. apply list_elem_of_here. }
  assert ((main pip_install w).2 = false) as Hmain.
  { unfold Setup.main.
    specialize (Hfailed [[Console.Text "🚀 Setting up YRIKKA Challenge environment...";
                          Console.Newline]]).
    destruct (run_steps (steps pip_install) w [] _) as [[w' out] failed_steps].
    cbn [snd] in Hfailed.
    destruct failed_steps as [|name failed_steps]; [by apply elem_of_nil in Hfailed |].
    reflexivity. }
  split; [apply create_never_returns_true |]. split; [exact Hfailed |].
  split; [exact Hmain |].
  unfold Setup.exit_status. destruct (main pip_install w) as [[w' out] success].
  cbn [snd] in Hmain. by rewrite Hmain.
Qed.

(** ** Creating the project directories *)





End SetupFacts.


Lemma main_never_succeeds_witness :
  (Setup.main "/proj" Examples.pip_ok Examples.ready_machine).2 = false ∧
  Setup.exit_status "/proj" Examples.pip_ok Examples.ready_machine = 1.
Proof.
  exact (proj2 (proj2 (main_never_succeeds "/proj" Examples.pip_ok Examples.ready_machine))).
Defined.

Example ready_machine_still_fails :
  (Setup.run_steps (Setup.steps "/proj" Examples.pip_ok) Examples.ready_machine [] []).2
  = ["Directory structure"%string].
Proof. vm_compute. reflexivity. Qed.

(** ** Verifying imports *)






(** ** Checking the dataset structure *)

Lemma check_each_true (w : Setup.world) (btt_data_path : string) (dirs : list string)
    (out : list Console.line) :
  (Setup.check_each w btt_data_path dirs out).2 = true ↔
  Forall (complete_in w btt_data_path) dirs.
Proof.
  revert out. induction dirs as [|name dirs IH]; intros out; cbn [Setup.check_each].
  - split; [constructor | reflexivity].
  - rewrite Forall_cons. unfold complete_in at 1, Setup.path_exists_in.
    destruct (decide (path_join (path_join btt_data_path name) "coco.json"
                      ∈ Setup.existing w)) as [Hc | Hc].
    + rewrite (bool_decide_eq_true_2 _ Hc). cbn [negb].
      destruct (decide (path_join (path_join btt_data_path name) "images"
                        ∈ Setup.existing w)) as [Hi | Hi].
      * rewrite (bool_decide_eq_true_2 _ Hi). cbn [negb]. rewrite IH. tauto.
      * rewrite (bool_decide_eq_false_2 _ Hi). cbn [negb snd].
        split; [discriminate | tauto].
    + rewrite (bool_decide_eq_false_2 _ Hc). cbn [negb snd].
      split; [discriminate | tauto].
Qed.

Lemma filter_bool_all {A} (f g : A → bool) (l : list A) :
  (∀ x, x ∈ l → f x = g x) → List.filter f l = List.filter g l.
Proof.
  induction l as [|a l IH]; intros H; [reflexivity |]. cbn [List.filter].
  rewrite (H a) by apply list_elem_of_here.
  rewrite IH; [reflexivity |]. intros x Hx. by apply H, list_elem_of_further.
Qed.

(** X20. [check_dataset_structure] returns [True] exactly when [BTT_Data]
    exists under the project root and is a directory, has at least one
    directory whose name does not start with a dot, and every such
    directory holds [coco.json] and [images]. On a [BTT_Data] that exists
    but is not a directory it raises [NotADirectoryError]. When it returns
    [True], a loader created on the same directory discovers exactly those
    directories, in the same order; a single incomplete directory makes
    the check fail, although the loader would only skip it. *)
Theorem dataset_check_agrees_with_discovery (project_root : string) (w : Setup.world) :
  Setup.world_after (Setup.check_dataset_structure project_root w) = w ∧
  (Setup.returned (Setup.check_dataset_structure project_root w) = inr (Some true) ↔
   path_join project_root "BTT_Data" ∈ Setup.existing w ∧
   path_join project_root "BTT_Data" ∈ Setup.directories w ∧
   Setup.visible_dirs w (path_join project_root "BTT_Data") ≠ [] ∧
   Forall (complete_in w (path_join project_root "BTT_Data"))
          (Setup.visible_dirs w (path_join project_root "BTT_Data"))) ∧
  (path_join project_root "BTT_Data" ∈ Setup.existing w →
   path_join project_root "BTT_Data" ∉ Setup.directories w →
   Setup.returned (Setup.check_dataset_structure project_root w)
   = inl (Console.Other (NotADirectoryError (path_join project_root "BTT_Data")))) ∧
  (Setup.returned (Setup.check_dataset_structure project_root w) = inr (Some true) →
   NoDup (Setup.listing w (path_join project_root "BTT_Data")) →
   ∃ self,
     init (Setup.fs_of w) (path_join project_root "BTT_Data") = inr self ∧
     list_datasets self = Setup.visible_dirs w (path_join project_root "BTT_Data") ∧
     list_datasets self ≠ []).
Proof.
  set (btt := path_join project_root "BTT_Data").
  assert (Setup.returned (Setup.check_dataset_structure project_root w) = inr (Some true) ↔
          btt ∈ Setup.existing w ∧ btt ∈ Setup.directories w ∧
          Setup.visible_dirs w btt ≠ [] ∧
          Forall (complete_in w btt) (Setup.visible_dirs w btt)) as Hiff.
  { unfold Setup.check_dataset_structure. fold btt.
    unfold Setup.path_exists_in at 1, Setup.is_dir_in at 1.
    destruct (decide (btt ∈ Setup.existing w)) as [Hb | Hb].
    2: { rewrite (bool_decide_eq_false_2 _ Hb). cbn [negb Setup.returned].
         split; [discriminate | tauto]. }
    rewrite (bool_decide_eq_true_2 _ Hb). cbn [negb].
    destruct (decide (btt ∈ Setup.directories w)) as [Hd | Hd].
    2: { rewrite (bool_decide_eq_false_2 _ Hd). cbn [negb Setup.returned].
         split; [discriminate | tauto]. }
    rewrite (bool_decide_eq_true_2 _ Hd). cbn [negb].
    destruct (Setup.visible_dirs w btt) as [|name dirs] eqn:Hdirs.
    { cbn [length Nat.eqb Setup.returned]. split; [discriminate |].
      intros (_ & _ & Hne & _). by destruct Hne. }
    cbn [length Nat.eqb]. rewrite <- (check_each_true w btt (name :: dirs)
      [[Console.Text "Checking dataset structure..."];
       [Console.Text "✅ Found "; Console.Count (S (length dirs));
        Console.Text " dataset directories"]]).
    destruct (Setup.check_each w btt (name :: dirs) _) as [out ok].
    cbn [Setup.returned snd]. split.
    - intros [= ->]. auto.
    - intros (_ & _ & _ & ->). reflexivity. }
  split; [|split; [exact Hiff |split]].
  - unfold Setup.check_dataset_structure.
    destruct (negb (Setup.path_exists_in w _)); [reflexivity |].
    destruct (negb (Setup.is_dir_in w _)); [reflexivity |].
    destruct (length (Setup.visible_dirs w _) =? 0)%nat; [reflexivity |].
    by destruct (Setup.check_each w _ _ _).
  - intros Hb Hd. unfold Setup.check_dataset_structure. fold btt.
    unfold Setup.path_exists_in, Setup.is_dir_in.
    by rewrite (bool_decide_eq_true_2 _ Hb), (bool_decide_eq_false_2 _ Hd).
  - intros Hret Hnd. apply Hiff in Hret as (Hb & Hd & Hne & Hall).
    assert (fs_exists (Setup.fs_of w) btt = true) as Hex
      by (by apply bool_decide_eq_true).
    assert (fs_is_dir (Setup.fs_of w) btt = true) as Hdir
      by (by apply bool_decide_eq_true).
    rewrite (init_directory _ _ Hex Hdir). eexists. split; [reflexivity |].
    assert (list_datasets
              {| base_path := btt;
                 datasets := foldl (discover_one (Setup.fs_of w) btt) []
                                   (fs_iterdir (Setup.fs_of w) btt) |}
            = Setup.visible_dirs w btt) as Hkeys.
    { unfold list_datasets. cbn [datasets].
      rewrite discover_keys_nodup; [|exact Hnd | intros name _; apply not_elem_of_nil].
      cbn [dict_keys map app]. unfold Setup.visible_dirs.
      rewrite Forall_forall in Hall.
      assert (∀ name, name ∈ Setup.listing w btt →
                Setup.is_dir_in w (path_join btt name) && negb (starts_with_dot name) = true →
                is_dataset_dir (Setup.fs_of w) btt name = true) as Hcomplete.
      { intros name Hin Hvis. unfold is_dataset_dir. cbn [Setup.fs_of fs_is_dir fs_exists].
        rewrite Hvis. cbn [andb].
        destruct (Hall name) as [Hc Hi].
        { unfold Setup.visible_dirs. apply list_elem_of_In, filter_In.
          split; [by apply list_elem_of_In | exact Hvis]. }
        unfold Setup.path_exists_in.
        by rewrite (bool_decide_eq_true_2 _ Hc), (bool_decide_eq_true_2 _ Hi). }
      apply filter_bool_all. intros name Hin.
      destruct (Setup.is_dir_in w (path_join btt name) && negb (starts_with_dot name))
        eqn:Hvis.
      - by apply Hcomplete.
      - unfold is_dataset_dir. cbn [Setup.fs_of fs_is_dir]. by rewrite Hvis. }
    split; [exact Hkeys |]. by rewrite Hkeys.
Qed.

Lemma dataset_check_agrees_with_discovery_witness :
  Setup.returned (Setup.check_dataset_structure "/proj" Examples.ready_machine)
    = inr (Some true) ∧
  NoDup (Setup.listing Examples.ready_machine (path_join "/proj" "BTT_Data")) ∧
  ∃ self,
    init (Setup.fs_of Examples.ready_machine) (path_join "/proj" "BTT_Data") = inr self ∧
    list_datasets self = ["d1"%string].
Proof.
  assert (Setup.returned (Setup.check_dataset_structure "/proj" Examples.ready_machine)
          = inr (Some true)) as Hret by (vm_compute; reflexivity).
  assert (NoDup (Setup.listing Examples.ready_machine (path_join "/proj" "BTT_Data")))
    as Hnd.
  { apply (bool_decide_unpack _). vm_compute. exact I. }
  split; [exact Hret |]. split; [exact Hnd |].
  destruct (proj2 (proj2 (proj2 (dataset_check_agrees_with_discovery
                                   "/proj" Examples.ready_machine)))
              Hret Hnd) as (self & Hinit & Hlist & _).
  exists self. split; [exact Hinit |]. rewrite Hlist. vm_compute. reflexivity.
Defined.

(** ** The basic tests *)


